(** * Soil-temperature lookup: dataset cache, point query, bounding-box query

    A shallow embedding of [soil_temp_lookup.py].  The module is glue around
    three collaborators (rasterio/GDAL, numpy, geopy) and two process-wide
    caches.  The collaborators are kept abstract (a record of operations,
    [Library]); the module's own code -- [_get_dataset], its cache helpers,
    [_geocode], [get_soil_temperature], [get_soil_temperatures_in_bbox] --
    is written out in a state-and-exception monad whose state holds the two
    caches, an allocator for object identities and a log of the calls made
    to the collaborators. *)

From Stdlib Require Import ZArith QArith Qabs Qround Qminmax Lqa Lia List Bool.
From stdpp Require Import base option gmap strings pretty.

Local Open Scope string_scope.
Local Open Scope Z_scope.

(** ** Python exceptions raised by the module or by its collaborators *)

Inductive exn : Type :=
| RuntimeError (msg : string)
| ValueError (msg : string)
| TypeError (msg : string)
| RasterioIOError (path : string)   (* rasterio.open on a file it cannot open *)
| WindowError (msg : string)        (* rasterio.windows *)
| IndexError                        (* [][0] *)
| CollaboratorError (what : string). (* anything else a collaborator raises *)

Inductive outcome (A : Type) : Type :=
| Returned (a : A)
| Raised (e : exn).
Arguments Returned {A} a.
Arguments Raised {A} e.

(** ** Coordinate reference systems *)

Inductive CRS : Type :=
| EPSG (code : Z)
| WKT (text : string).  (* a CRS with no EPSG code *)

(** [crs.to_epsg()]: the code, or [None]. *)
Definition to_epsg (c : CRS) : option Z :=
  match c with
  | EPSG code => Some code
  | WKT _ => None
  end.

(** Python's [x != 4326] where [x] is an int or [None]. *)
Definition epsg_ne (x : option Z) (n : Z) : bool :=
  match x with
  | Some code => negb (code =? n)
  | None => true
  end.

(** ** Pixel windows ([rasterio.windows.Window])

    Offsets and lengths are finite numbers; after [round_offsets] and
    [round_lengths] they are integral, which [Q] represents exactly. *)

Record Window : Type := mkWindow {
  col_off : Q;
  row_off : Q;
  width : Q;
  height : Q
}.

Definition Qltb (a b : Q) : bool := negb (Qle_bool b a).

(** [toranges]: the (start, stop) pair of a window along each axis. *)
Definition row_range (w : Window) : Q * Q := (row_off w, row_off w + height w)%Q.
Definition col_range (w : Window) : Q * Q := (col_off w, col_off w + width w)%Q.

(** [intersects(range1, range2)] of [rasterio.windows.intersect]:
    [not (range1[0] >= range2[1] or range1[1] <= range2[0])]. *)
Definition ranges_intersect (r1 r2 : Q * Q) : bool :=
  negb (Qle_bool (snd r2) (fst r1) || Qle_bool (snd r1) (fst r2)).

Definition intersect (w1 w2 : Window) : bool :=
  ranges_intersect (row_range w1) (row_range w2)
  && ranges_intersect (col_range w1) (col_range w2).

(** [Window.intersection]: raises [WindowError] when the windows do not
    intersect; otherwise the innermost extent, built by [Window.from_slices]
    from (max of starts, min of stops), lengths clamped at zero. *)
Definition intersection (w1 w2 : Window) : outcome Window :=
  if negb (intersect w1 w2) then Raised (WindowError "windows do not intersect")
  else
    let row_start := Qmax (fst (row_range w1)) (fst (row_range w2)) in
    let row_stop := Qmin (snd (row_range w1)) (snd (row_range w2)) in
    let col_start := Qmax (fst (col_range w1)) (fst (col_range w2)) in
    let col_stop := Qmin (snd (col_range w1)) (snd (col_range w2)) in
    Returned {| col_off := col_start;
                row_off := row_start;
                width := Qmax (col_stop - col_start) 0;
                height := Qmax (row_stop - row_start) 0 |}.

(** ** The functools.lru_cache wrapper, as a recency-ordered list *)

Section LRU.
Context {V : Type}.

Fixpoint lru_find (k : string) (c : list (string * V)) : option V :=
  match c with
  | [] => None
  | (k', v) :: c' => if String.eqb k k' then Some v else lru_find k c'
  end.

Fixpoint lru_remove (k : string) (c : list (string * V)) : list (string * V) :=
  match c with
  | [] => []
  | (k', v) :: c' => if String.eqb k k' then c' else (k', v) :: lru_remove k c'
  end.

(** a hit moves the entry to the most-recent end *)
Definition lru_touch (k : string) (v : V) (c : list (string * V)) :=
  (k, v) :: lru_remove k c.

(** a miss stores the new result, dropping the least recent beyond [maxsize] *)
Definition lru_store (maxsize : nat) (k : string) (v : V) (c : list (string * V)) :=
  firstn maxsize ((k, v) :: c).
End LRU.

Section Model.

(** The number type of coordinates and pixel values (Python floats and
    numpy scalars), and the affine transform of a raster, stay abstract. *)
Context {float : Type} {Affine : Type}.

Record BoundingBox : Type := mkBounds {
  left : float;
  bottom : float;
  right : float;
  top : float
}.

(** [numpy.ma.MaskedArray], two-dimensional: rows of (value, mask bit). *)
Definition MaskedArray : Type := list (list (float * bool)).
Definition ndarray : Type := list (list float).

(** What an open raster (a [DatasetReader], or the virtual raster behind a
    [WarpedVRT]) exposes: attributes, [sample] and [read]. *)
Record Raster : Type := mkRaster {
  crs : option CRS;
  transform : Affine;
  raster_width : Z;
  raster_height : Z;
  bounds : BoundingBox;
  nodata : option float;
  (* consuming ds.sample(xy): the arrays it yields, one per point and one
     entry per band, or the exception the generator raises *)
  sample : list (float * float) -> outcome (list (list float));
  (* ds.read(band, window=w, masked=True) *)
  read : Z -> Window -> outcome MaskedArray
}.

(** Dataset objects, each with its identity. *)
Inductive Dataset : Type :=
| DatasetReader (oid : nat) (r : Raster)
| WarpedVRT (oid : nat) (src : Dataset) (dst_crs : CRS) (view : Raster).

Definition oid_of (ds : Dataset) : nat :=
  match ds with
  | DatasetReader oid _ => oid
  | WarpedVRT oid _ _ _ => oid
  end.

Definition ds_crs (ds : Dataset) : option CRS :=
  match ds with
  | DatasetReader _ r => crs r
  | WarpedVRT _ _ dst _ => Some dst
  end.

Definition raster_of (ds : Dataset) : Raster :=
  match ds with
  | DatasetReader _ r => r
  | WarpedVRT _ _ _ view => view
  end.

(** ** The collaborators *)

Record Library : Type := mkLibrary {
  (* Python float comparison [a < b]; [a > b] is [float_lt b a] *)
  float_lt : float -> float -> bool;
  (* numpy *)
  np_isclose : float -> float -> bool;
  np_isnan : float -> bool;
  np_nan : float;
  py_float : float -> float;                 (* float(value), astype(float) *)
  (* numpy.ma: the fill value converted to the dtype of the array, or the
     TypeError of filled() when the dtype cannot hold it *)
  np_check_fill_value : MaskedArray -> float -> outcome float;
  (* str(Path(path).expanduser().resolve()) *)
  expanduser_resolve : string -> string;
  (* rasterio.open: the raster behind a path, if it can be opened; the
     files do not change while the process runs *)
  disk : string -> option Raster;
  (* the virtual raster GDAL exposes for WarpedVRT(src, crs=dst), or the
     exception the constructor raises *)
  gdal_warp : Raster -> CRS -> outcome Raster;
  (* rasterio.windows.from_bounds(left, bottom, right, top, transform) *)
  from_bounds : float -> float -> float -> float -> Affine -> outcome Window;
  round_offsets : Window -> outcome Window;
  round_lengths : Window -> outcome Window;
  (* geopy: is the import there, and what Nominatim.geocode answers
     (None when the address has no match); a network call, so the answer
     is a function of how many calls came before as well *)
  geopy_installed : bool;
  nominatim_geocode : nat -> string -> string -> Z -> outcome (option (float * float));
  (* repr(address) *)
  py_repr : string -> string
}.

Variable L : Library.

(** ** Process state *)

Inductive Event : Type :=
| EvOpen (path : string) (oid : nat)        (* rasterio.open returned *)
| EvWarp (src_oid oid : nat)                (* WarpedVRT constructed *)
| EvSample (oid : nat)                      (* ds.sample consumed *)
| EvRead (oid : nat) (w : Window)           (* ds.read(1, window=w) *)
| EvGeolocator (oid : nat)                  (* Nominatim(...) constructed *)
| EvGeocode (address : string).             (* geolocator.geocode *)

(** how often [geolocator.geocode] was called *)
Fixpoint count_geocodes (l : list Event) : nat :=
  match l with
  | [] => 0%nat
  | EvGeocode _ :: l' => S (count_geocodes l')
  | _ :: l' => count_geocodes l'
  end.

Record State : Type := mkState {
  dataset_cache : gmap string Dataset;         (* _get_dataset._cache *)
  geolocator_cache : gmap string nat;          (* _GEOLOCATOR_CACHE *)
  geocode_lru : list (string * (float * float)); (* lru_cache of _geocode *)
  next_oid : nat;
  log : list Event                             (* newest first *)
}.

Definition initial_state : State :=
  {| dataset_cache := ∅; geolocator_cache := ∅; geocode_lru := [];
     next_oid := 0%nat; log := [] |}.

(** ** State and exceptions *)

Definition M (A : Type) : Type := State -> outcome A * State.

Definition ret {A} (a : A) : M A := fun s => (Returned a, s).
Definition raise {A} (e : exn) : M A := fun s => (Raised e, s).
Definition bind {A B} (m : M A) (k : A -> M B) : M B :=
  fun s => match m s with
           | (Returned a, s') => k a s'
           | (Raised e, s') => (Raised e, s')
           end.
Definition lift {A} (o : outcome A) : M A := fun s => (o, s).
Definition emit (e : Event) : M unit :=
  fun s => (Returned tt,
            {| dataset_cache := dataset_cache s;
               geolocator_cache := geolocator_cache s;
               geocode_lru := geocode_lru s;
               next_oid := next_oid s;
               log := e :: log s |}).
Definition fresh_oid : M nat :=
  fun s => (Returned (next_oid s),
            {| dataset_cache := dataset_cache s;
               geolocator_cache := geolocator_cache s;
               geocode_lru := geocode_lru s;
               next_oid := S (next_oid s);
               log := log s |}).

Notation "'do' x <- m ; k" := (bind m (fun x => k))
  (at level 10, x name, m at level 100, k at level 200).
Notation "'do' ' p <- m ; k" := (bind m (fun x => match x with p => k end))
  (at level 10, p pattern, m at level 100, k at level 200).
Notation "m ;; k" := (bind m (fun _ => k))
  (at level 100, k at level 200, right associativity).

(** ** Collaborator calls, with their effects on the state *)

(** [rasterio.open(p)] *)
Definition rasterio_open (p : string) : M Dataset :=
  match disk L p with
  | None => raise (RasterioIOError p)
  | Some r =>
      do oid <- fresh_oid;
      emit (EvOpen p oid);;
      ret (DatasetReader oid r)
  end.

(** [WarpedVRT(base, crs="EPSG:4326")] *)
Definition new_WarpedVRT (base : Dataset) (dst : CRS) : M Dataset :=
  do view <- lift (gdal_warp L (raster_of base) dst);
  do oid <- fresh_oid;
  emit (EvWarp (oid_of base) oid);;
  ret (WarpedVRT oid base dst view).

(** ** [_get_dataset] and its cache helpers *)

Definition DEFAULT_TIF : string := "SBIO1_Annual_Mean_Temperature_5_15cm.tif".

Definition _get_dataset_cache_get (key : string) : M (option Dataset) :=
  fun s => (Returned (dataset_cache s !! key), s).

Definition _get_dataset_cache_set (key : string) (value : Dataset) : M unit :=
  fun s => (Returned tt,
            {| dataset_cache := <[key := value]> (dataset_cache s);
               geolocator_cache := geolocator_cache s;
               geocode_lru := geocode_lru s;
               next_oid := next_oid s;
               log := log s |}).

Definition _get_dataset (path : string) : M Dataset :=
  let p := expanduser_resolve L path in
  do ds <- _get_dataset_cache_get p;
  match ds with
  | Some ds => ret ds
  | None =>
      do base <- rasterio_open p;
      match ds_crs base with
      | None => raise (RuntimeError "Raster has no CRS – cannot locate coordinates.")
      | Some c =>
          do base <- (if epsg_ne (to_epsg c) 4326
                      then new_WarpedVRT base (EPSG 4326)
                      else ret base);
          _get_dataset_cache_set p base;;
          ret base
      end
  end.

(** ** [_geocode], under [functools.lru_cache(maxsize=2048)] *)

Definition geolocator_cache_set (key : string) (oid : nat) : M unit :=
  fun s => (Returned tt,
            {| dataset_cache := dataset_cache s;
               geolocator_cache := <[key := oid]> (geolocator_cache s);
               geocode_lru := geocode_lru s;
               next_oid := next_oid s;
               log := log s |}).

Definition geocode_body (address : string) : M (float * float) :=
  if negb (geopy_installed L)
  then raise (RuntimeError
    "geopy is required for address lookup. Install via `pip install geopy`.")
  else
    do known <- (fun s => (Returned (geolocator_cache s !! "nominatim"), s));
    (match known with
     | Some _ => ret tt
     | None =>
         do oid <- fresh_oid;
         emit (EvGeolocator oid);;
         geolocator_cache_set "nominatim" oid
     end);;
    do earlier <- (fun s => (Returned (count_geocodes (log s)), s));
    emit (EvGeocode address);;
    do loc <- lift (nominatim_geocode L earlier "soil-temp-lookup" address 5);
    match loc with
    | None => raise (ValueError (String.append "Address not found: " (py_repr L address)))
    | Some (latitude, longitude) => ret (latitude, longitude)
    end.

Definition lru_maxsize : nat := 2048.

Definition set_geocode_lru (c : list (string * (float * float))) (s : State) : State :=
  {| dataset_cache := dataset_cache s;
     geolocator_cache := geolocator_cache s;
     geocode_lru := c;
     next_oid := next_oid s;
     log := log s |}.

Definition _geocode (address : string) : M (float * float) :=
  fun s =>
    match lru_find address (geocode_lru s) with
    | Some v => (Returned v, set_geocode_lru (lru_touch address v (geocode_lru s)) s)
    | None =>
        match geocode_body address s with
        | (Returned v, s') =>
            (Returned v, set_geocode_lru (lru_store lru_maxsize address v (geocode_lru s')) s')
        | (Raised e, s') => (Raised e, s')   (* exceptions are not memoised *)
        end
    end.

(** ** Public API: the point query *)

Inductive AddressOrCoord : Type :=
| Address (address : string)
| Coord (lat lon : float).

(** the three lines after the sample is taken *)
Definition nodata_policy (ds : Dataset) (value : float) : option float :=
  if match nodata (raster_of ds) with
     | Some nd => np_isclose L value nd
     | None => false
     end
  then None
  else if np_isnan L value then None
  else Some (py_float L value).

Definition ds_sample (ds : Dataset) (xy : list (float * float)) : M (list (list float)) :=
  emit (EvSample (oid_of ds));;
  lift (sample (raster_of ds) xy).

(** [isinstance(address_or_coord, str)]: geocode, else unpack the tuple *)
Definition resolve_coord (address_or_coord : AddressOrCoord) : M (float * float) :=
  match address_or_coord with
  | Address a => _geocode a
  | Coord lat lon => ret (lat, lon)
  end.

Definition get_soil_temperature (address_or_coord : AddressOrCoord) (tif_path : string)
  : M (option float) :=
  do ' (lat, lon) <- resolve_coord address_or_coord;
  do ds <- _get_dataset tif_path;
  do sample_iter <- ds_sample ds [(lon, lat)];
  match sample_iter with
  | [] => ret None                       (* StopIteration *)
  | arr :: _ =>
      match arr with
      | [] => raise IndexError
      | value :: _ => ret (nodata_policy ds value)
      end
  end.

(** ** Public API: the bounding-box query *)

Inductive BboxResult : Type :=
| MaskedResult (data : MaskedArray)   (* numpy.ma.MaskedArray *)
| PlainResult (a : ndarray).          (* numpy.ndarray of floats *)

(** [data.mask.all()] *)
Definition mask_all (data : MaskedArray) : bool :=
  forallb (forallb snd) data.

(** [data.filled(fill)]: the fill value is first converted to the dtype of
    the array, which can fail; then it replaces the masked cells *)
Definition filled (data : MaskedArray) (fill : float) : outcome ndarray :=
  match np_check_fill_value L data fill with
  | Raised e => Raised e
  | Returned fv =>
      Returned (map (map (fun cell : float * bool => if snd cell then fv else fst cell))
                    data)
  end.

(** [a.astype(float)] *)
Definition astype_float (a : ndarray) : ndarray := map (map (py_float L)) a.

Definition ds_read (ds : Dataset) (band : Z) (w : Window) : M MaskedArray :=
  emit (EvRead (oid_of ds) w);;
  lift (read (raster_of ds) band w).

(** [east < left or west > right or north < bottom or south > top] *)
Definition outside (b : BoundingBox) (south west north east : float) : bool :=
  float_lt L east (left b) || float_lt L (right b) west
  || float_lt L north (bottom b) || float_lt L (top b) south.

Definition get_soil_temperatures_in_bbox
  (bbox : float * float * float * float) (tif_path : string) (masked : bool)
  : M (option BboxResult) :=
  let '(lat_min, lon_min, lat_max, lon_max) := bbox in
  let '(south, west, north, east) := (lat_min, lon_min, lat_max, lon_max) in
  do ds <- _get_dataset tif_path;
  if outside (bounds (raster_of ds)) south west north east then ret None
  else
    do window <- lift (from_bounds L west south east north (transform (raster_of ds)));
    do window <- lift (round_offsets L window);
    do window <- lift (round_lengths L window);
    let full_window :=
      mkWindow 0 0 (inject_Z (raster_width (raster_of ds)))
                   (inject_Z (raster_height (raster_of ds))) in
    do window <- lift (intersection window full_window);
    if Qle_bool (width window) 0 || Qle_bool (height window) 0 then ret None
    else
      do data <- ds_read ds 1 window;
      if mask_all data then ret None
      else if masked then ret (Some (MaskedResult data))
      else
        do filled <- lift (filled data (np_nan L));
        ret (Some (PlainResult (astype_float filled))).

(** ** Observations on the log, and the states a process can be in *)

Fixpoint count_opens (l : list Event) : nat :=
  match l with
  | [] => 0%nat
  | EvOpen _ _ :: l' => S (count_opens l')
  | _ :: l' => count_opens l'
  end.

Fixpoint count_reads (l : list Event) : nat :=
  match l with
  | [] => 0%nat
  | EvRead _ _ :: l' => S (count_reads l')
  | _ :: l' => count_reads l'
  end.

Inductive ApiCall : Type :=
| CallGetDataset (path : string)
| CallGeocode (address : string)
| CallPoint (address_or_coord : AddressOrCoord) (tif_path : string)
| CallBbox (bbox : float * float * float * float) (tif_path : string) (masked : bool).

Definition run_call (c : ApiCall) (s : State) : State :=
  match c with
  | CallGetDataset path => snd (_get_dataset path s)
  | CallGeocode address => snd (_geocode address s)
  | CallPoint ac path => snd (get_soil_temperature ac path s)
  | CallBbox bbox path masked => snd (get_soil_temperatures_in_bbox bbox path masked s)
  end.

(** the states of a process: the module freshly imported, then any calls *)
Inductive reachable : State -> Prop :=
| reach_init : reachable initial_state
| reach_call s c : reachable s -> reachable (run_call c s).

(** ** Predicates on states *)

(** entries of the dataset cache are kept as they are *)
Definition cache_grows (s s' : State) : Prop :=
  dataset_cache s ⊆ dataset_cache s'.

(** a cached handle under [key] came from the raster at [key], which has a
    CRS; it is that raster's reader when the CRS is EPSG:4326 and a
    [WarpedVRT] to EPSG:4326 around the reader otherwise *)
Definition handle_ok (key : string) (ds : Dataset) : Prop :=
  exists r c,
    disk L key = Some r /\ crs r = Some c /\
    ((to_epsg c = Some 4326 /\ exists oid, ds = DatasetReader oid r) \/
     (to_epsg c <> Some 4326 /\
      exists oid oid' view,
        gdal_warp L r (EPSG 4326) = Returned view /\
        ds = WarpedVRT oid (DatasetReader oid' r) (EPSG 4326) view)).

Definition cache_inv (s : State) : Prop :=
  forall key ds,
    dataset_cache s !! key = Some ds ->
    (exists path, key = expanduser_resolve L path) /\ handle_ok key ds.

(** a memoised geocoding result is what the geocoder once answered *)
Definition memo_ok (e : string * (float * float)) : Prop :=
  geopy_installed L = true /\
  exists earlier,
    nominatim_geocode L earlier "soil-temp-lookup" (fst e) 5 = Returned (Some (snd e)).

Definition lru_inv (s : State) : Prop := Forall memo_ok (geocode_lru s).

Definition Inv (s : State) : Prop := cache_inv s /\ lru_inv s.

(** what a step of the module may do to the state *)
Definition good_step (s s' : State) : Prop :=
  cache_grows s s' /\ (Inv s -> Inv s').

End Model.

Arguments BoundingBox : clear implicits.
Arguments MaskedArray : clear implicits.
Arguments ndarray : clear implicits.
Arguments Raster : clear implicits.
Arguments Dataset : clear implicits.
Arguments Library : clear implicits.
Arguments State : clear implicits.
Arguments M : clear implicits.
Arguments AddressOrCoord : clear implicits.
Arguments BboxResult : clear implicits.
Arguments ApiCall : clear implicits.
Arguments Address {float} address.
Arguments initial_state : clear implicits.

(** ** A small world to run the module in

    The raster of the specification's example scenario: bounds 0-10 degrees
    in both axes, one degree per pixel, nodata -9999, the pixel holding
    (5.5 N, 5.5 E) valued 15.5; the same grid without a CRS and in a
    projected CRS; a geocoder that knows one address. *)

Module Demo.

(** numbers: a float (NaN or finite) or a numpy integer *)
Inductive num : Type :=
| NaN
| Fin (q : Q)
| Int (z : Z).

Definition value_of (a : num) : option Q :=
  match a with
  | NaN => None
  | Fin q => Some q
  | Int z => Some (inject_Z z)
  end.

Definition num_lt (a b : num) : bool :=
  match value_of a, value_of b with
  | Some x, Some y => Qltb x y
  | _, _ => false
  end.

(** numpy.isclose with its default tolerances, equal_nan=False *)
Definition rtol : Q := 1 # 100000.
Definition atol : Q := 1 # 100000000.
Definition isclose (a b : num) : bool :=
  match value_of a, value_of b with
  | Some x, Some y => Qle_bool (Qabs (x - y)) (atol + rtol * Qabs y)
  | _, _ => false
  end.

Definition isnan (a : num) : bool :=
  match a with
  | NaN => true
  | _ => false
  end.

(** float(value) *)
Definition as_float (a : num) : num :=
  match a with
  | Int z => Fin (inject_Z z)
  | _ => a
  end.

(** a masked array of integer dtype *)
Definition integer_array (data : list (list (num * bool))) : bool :=
  existsb (existsb (fun cell : num * bool =>
                      match fst cell with Int _ => true | _ => false end)) data.

(** numpy.ma's check of a fill value against the dtype of the array *)
Definition check_fill_value (data : list (list (num * bool))) (fill : num)
  : outcome num :=
  if integer_array data
  then match fill with
       | NaN => Raised (TypeError "Cannot convert fill_value nan to dtype int16")
       | Fin q => Returned (Int (Qfloor q))
       | Int z => Returned (Int z)
       end
  else Returned (as_float fill).

(** a north-up affine transform: top-left corner and pixel size *)
Record affine : Type := mkAffine { x0 : Q; y0 : Q; res : Q }.

(** home directory /home/user, working directory /work, no symlinks *)
Definition resolve (path : string) : string :=
  if String.prefix "/" path then path
  else if String.prefix "~/" path
       then String.append "/home/user/"
              (String.substring 2 (String.length path - 2) path)
       else String.append "/work/" path.

Definition nodata_value : Q := -9999.

Definition pixel (row col : Z) : Q :=
  if (row =? 4) && (col =? 5) then 31 # 2
  else if (row =? 0) && (col =? 0) then nodata_value
  else 10.

Definition grid_transform : affine := {| x0 := 0; y0 := 10; res := 1 |}.

Definition in_grid (row col : Z) : bool :=
  (0 <=? row) && (row <? 10) && (0 <=? col) && (col <? 10).

(** the pixel values of the grid as floats, or truncated to integers *)
Definition as_pixel (integer : bool) (q : Q) : num :=
  if integer then Int (Qfloor q) else Fin q.

(** sampling converts each point to a pixel index, which fails on NaN *)
Fixpoint sample_points (integer : bool) (xy : list (num * num))
  : outcome (list (list num)) :=
  match xy with
  | [] => Returned []
  | (x, y) :: rest =>
      match value_of x, value_of y with
      | Some x, Some y =>
          let col := Qfloor x in
          let row := Qfloor (10 - y) in
          match sample_points integer rest with
          | Raised e => Raised e
          | Returned arrays =>
              Returned ([as_pixel integer
                           (if in_grid row col then pixel row col else nodata_value)]
                        :: arrays)
          end
      | _, _ => Raised (ValueError "cannot convert float NaN to integer")
      end
  end.

Definition grid_sample : list (num * num) -> outcome (list (list num)) :=
  sample_points false.

Definition zrange (start : Z) (len : nat) : list Z :=
  map (fun i => start + Z.of_nat i) (seq 0 len).

Definition read_window (integer : bool) (band : Z) (w : Window)
  : outcome (list (list (num * bool))) :=
  if negb (band =? 1) then Raised IndexError
  else
    Returned
      (map (fun row =>
              map (fun col =>
                     let v := pixel row col in
                     (as_pixel integer v, Qeq_bool v nodata_value))
                  (zrange (Qfloor (col_off w)) (Z.to_nat (Qceiling (width w)))))
           (zrange (Qfloor (row_off w)) (Z.to_nat (Qceiling (height w))))).

Definition grid_read : Z -> Window -> outcome (list (list (num * bool))) :=
  read_window false.

Definition grid (c : option CRS) : Raster num affine :=
  {| crs := c;
     transform := grid_transform;
     raster_width := 10;
     raster_height := 10;
     bounds := {| left := Fin 0; bottom := Fin 0; right := Fin 10; top := Fin 10 |};
     nodata := Some (Fin nodata_value);
     sample := grid_sample;
     read := grid_read |}.

(** the same grid stored as 16-bit integers *)
Definition int_grid (c : option CRS) : Raster num affine :=
  {| crs := c;
     transform := grid_transform;
     raster_width := 10;
     raster_height := 10;
     bounds := {| left := Fin 0; bottom := Fin 0; right := Fin 10; top := Fin 10 |};
     nodata := Some (Int (-9999));
     sample := sample_points true;
     read := read_window true |}.

Definition files (p : string) : option (Raster num affine) :=
  if String.eqb p "/work/soil.tif" then Some (grid (Some (EPSG 4326)))
  else if String.eqb p "/work/nocrs.tif" then Some (grid None)
  else if String.eqb p "/work/utm.tif" then Some (grid (Some (EPSG 32633)))
  else if String.eqb p "/work/int16.tif" then Some (int_grid (Some (EPSG 4326)))
  else if String.eqb p "/work/local.tif" then Some (grid (Some (WKT "LOCAL_CS")))
  else None.

(** GDAL cannot reproject from a CRS it has no transformation for *)
Definition warp (r : Raster num affine) (dst : CRS) : outcome (Raster num affine) :=
  match crs r with
  | Some (WKT _) =>
      Raised (CollaboratorError "Cannot find coordinate operations to EPSG:4326")
  | _ =>
      Returned {| crs := Some dst;
                  transform := transform r;
                  raster_width := raster_width r;
                  raster_height := raster_height r;
                  bounds := bounds r;
                  nodata := nodata r;
                  sample := sample r;
                  read := read r |}
  end.

Definition window_from_bounds (l b r t : num) (a : affine) : outcome Window :=
  match value_of l, value_of b, value_of r, value_of t with
  | Some l, Some b, Some r, Some t =>
      if Qltb r l || Qltb t b
      then Raised (WindowError "Bounds and transform are inconsistent")
      else Returned {| col_off := (l - x0 a) / res a;
                       row_off := (y0 a - t) / res a;
                       width := (r - l) / res a;
                       height := (t - b) / res a |}
  | _, _, _, _ => Raised (ValueError "cannot convert float NaN to integer")
  end.

Definition floor_offsets (w : Window) : outcome Window :=
  Returned {| col_off := inject_Z (Qfloor (col_off w));
              row_off := inject_Z (Qfloor (row_off w));
              width := width w;
              height := height w |}.

Definition ceil_lengths (w : Window) : outcome Window :=
  Returned {| col_off := col_off w;
              row_off := row_off w;
              width := inject_Z (Qceiling (width w));
              height := inject_Z (Qceiling (height w)) |}.

(** the service knows one address, and times out on the first request of
    a process for another *)
Definition geocoder (earlier : nat) (user_agent address : string) (timeout : Z)
  : outcome (option (num * num)) :=
  if String.eqb address "Equator Cafe" then Returned (Some (Fin (11 # 2), Fin (11 # 2)))
  else if String.eqb address "Slow Lane"
       then match earlier with
            | O => Raised (CollaboratorError "GeocoderTimedOut")
            | S _ => Returned (Some (Fin 1, Fin 1))
            end
       else Returned None.

Definition quote (s : string) : string :=
  String.append "'" (String.append s "'").

Definition lib : Library num affine :=
  {| float_lt := num_lt;
     np_isclose := isclose;
     np_isnan := isnan;
     np_nan := NaN;
     py_float := as_float;
     np_check_fill_value := check_fill_value;
     expanduser_resolve := resolve;
     disk := files;
     gdal_warp := warp;
     from_bounds := window_from_bounds;
     round_offsets := floor_offsets;
     round_lengths := ceil_lengths;
     geopy_installed := true;
     nominatim_geocode := geocoder;
     py_repr := quote |}.

(** the same world without geopy *)
Definition lib_no_geopy : Library num affine :=
  {| float_lt := num_lt;
     np_isclose := isclose;
     np_isnan := isnan;
     np_nan := NaN;
     py_float := as_float;
     np_check_fill_value := check_fill_value;
     expanduser_resolve := resolve;
     disk := files;
     gdal_warp := warp;
     from_bounds := window_from_bounds;
     round_offsets := floor_offsets;
     round_lengths := ceil_lengths;
     geopy_installed := false;
     nominatim_geocode := geocoder;
     py_repr := quote |}.

Definition s0 : State num affine := initial_state num affine.

(** the handle the first acquisition of soil.tif creates, and the state
    it leaves *)
Definition soil : Dataset num affine := DatasetReader 0 (grid (Some (EPSG 4326))).
Definition s_soil : State num affine := snd (_get_dataset lib "soil.tif" s0).

(** a box over the north-east corner, reaching two degrees beyond it *)
Definition corner_box : num * num * num * num := (Fin 8, Fin 8, Fin 12, Fin 12).
Definition corner_raw : Window :=
  {| col_off := 8; row_off := -2; width := 4; height := 4 |}.
Definition corner_clipped : Window :=
  {| col_off := 8; row_off := 0; width := 2; height := 2 |}.
Definition corner_data : MaskedArray num :=
  [[(Fin 10, false); (Fin 10, false)]; [(Fin 10, false); (Fin 10, false)]].

(** a box north of the raster *)
Definition far_box : num * num * num * num := (Fin 11, Fin 0, Fin 12, Fin 1).

End Demo.


(** ** Further observations on the log and the caches *)

(** how often [rasterio.open] returned a dataset for the path [k] *)
Fixpoint opens_of (k : string) (l : list Event) : nat :=
  match l with
  | [] => 0%nat
  | EvOpen p _ :: l' => if String.eqb p k then S (opens_of k l') else opens_of k l'
  | _ :: l' => opens_of k l'
  end.

(** how often [Nominatim(...)] was constructed *)
Fixpoint count_geolocators (l : list Event) : nat :=
  match l with
  | [] => 0%nat
  | EvGeolocator _ :: l' => S (count_geolocators l')
  | _ :: l' => count_geolocators l'
  end.

(** how often [ds.sample] was consumed *)
Fixpoint count_samples (l : list Event) : nat :=
  match l with
  | [] => 0%nat
  | EvSample _ :: l' => S (count_samples l')
  | _ :: l' => count_samples l'
  end.

Section Observations.

Context {float Affine : Type} (L : Library float Affine).

(** a sequence of calls of the module, oldest first *)
Definition run_calls (calls : list (ApiCall float)) (s : State float Affine)
  : State float Affine :=
  fold_left (fun st c => run_call L c st) calls s.

(** the raster path a call names, if it names one *)
Definition call_path (c : ApiCall float) : option string :=
  match c with
  | CallGetDataset path => Some path
  | CallGeocode _ => None
  | CallPoint _ path => Some path
  | CallBbox _ path _ => Some path
  end.

(** the state in which [geolocator.geocode(address, timeout=5)] is called:
    the geolocator has been constructed and stored if it was not there *)
Definition geocoder_called (address : string) (s : State float Affine)
  : State float Affine :=
  match geolocator_cache s !! "nominatim" with
  | Some _ =>
      {| dataset_cache := dataset_cache s;
         geolocator_cache := geolocator_cache s;
         geocode_lru := geocode_lru s;
         next_oid := next_oid s;
         log := EvGeocode address :: log s |}
  | None =>
      {| dataset_cache := dataset_cache s;
         geolocator_cache := <["nominatim" := next_oid s]> (geolocator_cache s);
         geocode_lru := geocode_lru s;
         next_oid := S (next_oid s);
         log := EvGeocode address :: EvGeolocator (next_oid s) :: log s |}
  end.

(** a raster that opens, has a CRS and, when that is not EPSG:4326, can be
    wrapped in a [WarpedVRT] has been opened once if it is cached and never
    if it is not *)
Definition opened_once (s : State float Affine) : Prop :=
  forall k r c,
    disk L k = Some r -> crs r = Some c ->
    (to_epsg c = Some 4326 \/ exists view, gdal_warp L r (EPSG 4326) = Returned view) ->
    opens_of k (log s)
    = match dataset_cache s !! k with Some _ => 1%nat | None => 0%nat end.

(** cached handles are objects allocated earlier, one object per key *)
Definition oids_ok (s : State float Affine) : Prop :=
  (forall k ds, dataset_cache s !! k = Some ds -> (oid_of ds < next_oid s)%nat) /\
  (forall k1 k2 ds1 ds2,
      dataset_cache s !! k1 = Some ds1 -> dataset_cache s !! k2 = Some ds2 ->
      oid_of ds1 = oid_of ds2 -> k1 = k2).

(** the geolocator has been constructed once if it is stored, never if not *)
Definition geolocator_once (s : State float Affine) : Prop :=
  count_geolocators (log s)
  = match geolocator_cache s !! "nominatim" with Some _ => 1%nat | None => 0%nat end.

(** what the point query answers once the sampler has run *)
Definition sampled_answer (ds : Dataset float Affine) (lat lon : float)
  : outcome (option float) :=
  match sample (raster_of ds) [(lon, lat)] with
  | Raised e => Raised e
  | Returned [] => Returned None
  | Returned ([] :: _) => Raised IndexError
  | Returned ((value :: _) :: _) => Returned (nodata_policy L ds value)
  end.

End Observations.

(** ** The two command-line entry points

    What a run of a script shows: the lines it prints, in order, whether it
    displayed the plot, and how it ended. *)

Inductive Output : Type :=
| Stdout (text : string)
| Stderr (text : string)
| PlotShown.                 (* plt.subplots ... show(...) ... plt.show() *)

Inductive Ending : Type :=
| Exit (code : Z)            (* sys.exit(code), or the end of the script: 0 *)
| Uncaught (e : exn).        (* a traceback *)

Record Run : Type := mkRun {
  outputs : list Output;
  ending : Ending
}.

Definition newline : string := String (Ascii.ascii_of_nat 10) EmptyString.

Section Scripts.

Context {float Affine : Type} (L : Library float Affine).

(** what the scripts use beyond [Library] *)
Record ScriptLibrary : Type := mkScriptLibrary {
  exn_str : exn -> string;                          (* str(exc) *)
  json_dumps : string -> option float -> string;    (* json.dumps({"address": a, "soil_temp_c": t}) *)
  plt_imported : bool;                              (* matplotlib.pyplot imported: plt is not None *)
  path_str : string -> string;                      (* str(Path(tif_path)) *)
  path_exists : string -> bool;                     (* Path.exists() *)
  profile_items : Raster float Affine -> list (string * string); (* src.profile.items(), formatted *)
  read_band : Raster float Affine -> Z -> outcome (MaskedArray float); (* src.read(1, masked=True) *)
  np_nanmin : MaskedArray float -> outcome float;
  np_nanmean : MaskedArray float -> outcome float;
  np_nanmax : MaskedArray float -> outcome float;
  format_stat : string -> float -> outcome string   (* f"{k:<10} {v:6.2f}" *)
}.

Variable SL : ScriptLibrary.

(** *** [soil_temp_lookup.py] run as a script

    [tif] is the value of [--tif], if given. *)
Definition lookup_cli (address : string) (tif : option string) : Run :=
  let ns_tif := match tif with Some p => p | None => DEFAULT_TIF end in
  match fst (get_soil_temperature L (Address address) ns_tif (initial_state float Affine)) with
  | Raised exc =>
      {| outputs := [Stderr (String.append "❌ " (exn_str SL exc))];
         ending := Exit 1 |}
  | Returned temp =>
      {| outputs := [Stdout (json_dumps SL address temp)];
         ending := Exit 0 |}
  end.

(** *** [parse_soil_temp.main] *)

Definition MATPLOTLIB_WARNING : string :=
  "⚠️  Matplotlib not available – running in stats-only mode (use --no-plot to silence).".

Definition not_found_message (tif : string) : string :=
  String.append "❌ File "
    (String.append tif
       (String.append " not found."
          (String.append newline
             (String.append "Download it from https://zenodo.org/record/4558732 and place it"
                            " next to this script, or pass the path as an argument.")))).

(** the three formatted lines of the statistics, printed one by one: a
    formatting error leaves the earlier lines printed *)
Fixpoint print_stats (stats : list (string * float)) (printed : list Output) : Run :=
  match stats with
  | [] => {| outputs := printed; ending := Exit 0 |}
  | (k, v) :: rest =>
      match format_stat SL k v with
      | Raised e => {| outputs := printed; ending := Uncaught e |}
      | Returned line => print_stats rest (app printed [Stdout line])
      end
  end.

Definition main (tif_path : string) (show_plot : bool) : Run :=
  let warned := show_plot && negb (plt_imported SL) in
  let show_plot := if warned then false else show_plot in
  let printed := if warned then [Stdout MATPLOTLIB_WARNING] else [] in
  let tif := path_str SL tif_path in
  if negb (path_exists SL tif)
  then {| outputs := app printed [Stdout (not_found_message tif)]; ending := Exit 1 |}
  else
    match disk L tif with
    | None => {| outputs := printed; ending := Uncaught (RasterioIOError tif) |}
    | Some src =>
        let printed :=
          app printed
              (Stdout "=== Metadata ==="
               :: map (fun kv : string * string =>
                         Stdout (String.append (fst kv) (String.append ": " (snd kv))))
                      (profile_items SL src)) in
        match read_band SL src 1 with
        | Raised e => {| outputs := printed; ending := Uncaught e |}
        | Returned data =>
            match np_nanmin SL data with
            | Raised e => {| outputs := printed; ending := Uncaught e |}
            | Returned lo =>
                match np_nanmean SL data with
                | Raised e => {| outputs := printed; ending := Uncaught e |}
                | Returned mean =>
                    match np_nanmax SL data with
                    | Raised e => {| outputs := printed; ending := Uncaught e |}
                    | Returned hi =>
                        let after_stats :=
                          print_stats
                            [("min (°C)", lo); ("mean (°C)", mean); ("max (°C)", hi)]
                            (app printed [Stdout (String.append newline "=== Global stats ===")]) in
                        match ending after_stats with
                        | Exit _ =>
                            if show_plot
                            then {| outputs := app (outputs after_stats) [PlotShown];
                                    ending := Exit 0 |}
                            else after_stats
                        | Uncaught _ => after_stats
                        end
                    end
                end
            end
        end
    end.

(** [_cli] of [parse_soil_temp.py]: [tif] is the positional argument, if
    given, and [no_plot] the [--no-plot] flag *)
Definition _cli (tif : option string) (no_plot : bool) : Run :=
  main (match tif with Some p => p | None => DEFAULT_TIF end) (negb no_plot).

End Scripts.

Arguments ScriptLibrary : clear implicits.

(** ** The scripts in the demo world *)

Module DemoScripts.

Definition dquote : string := String (Ascii.ascii_of_nat 34) EmptyString.

(** a number with one decimal, enough for the demo raster *)
Definition render (v : Demo.num) : string :=
  match v with
  | Demo.NaN => "NaN"
  | Demo.Fin q =>
      let tenths := Qfloor (q * 10) in
      String.append (pretty (tenths / 10))
                    (String.append "." (pretty (tenths mod 10)))
  | Demo.Int z => pretty z
  end.

Definition dumps (address : string) (temp : option Demo.num) : string :=
  String.append "{"
    (String.append dquote (String.append "address" (String.append dquote
    (String.append ": " (String.append dquote (String.append address (String.append dquote
    (String.append ", " (String.append dquote (String.append "soil_temp_c"
    (String.append dquote (String.append ": "
    (String.append (match temp with Some v => render v | None => "null" end)
                   "}"))))))))))))).

Definition message (e : exn) : string :=
  match e with
  | RuntimeError msg => msg
  | ValueError msg => msg
  | TypeError msg => msg
  | RasterioIOError path => String.append path ": No such file or directory"
  | WindowError msg => msg
  | IndexError => "index 0 is out of bounds for axis 0 with size 0"
  | CollaboratorError what => what
  end.

(** the files of the demo world, and one that exists but is no raster *)
Definition exists_on_disk (p : string) : bool :=
  match Demo.files p with
  | Some _ => true
  | None => String.eqb p "/work/notes.txt"
  end.

Definition whole_band (r : Raster Demo.num Demo.affine) (band : Z)
  : outcome (MaskedArray Demo.num) :=
  read r band (mkWindow 0 0 (inject_Z (raster_width r)) (inject_Z (raster_height r))).

(** the unmasked finite values of an array *)
Definition valid_values (data : MaskedArray Demo.num) : list Q :=
  flat_map (fun row =>
              flat_map (fun cell : Demo.num * bool =>
                          match Demo.value_of (fst cell), snd cell with
                          | Some q, false => [q]
                          | _, _ => []
                          end) row) data.

Definition reduce (f : Q -> Q -> Q) (data : MaskedArray Demo.num) : outcome Demo.num :=
  match valid_values data with
  | [] => Raised (ValueError "zero-size array to reduction operation")
  | q :: qs => Returned (Demo.Fin (fold_left f qs q))
  end.

Definition mean (data : MaskedArray Demo.num) : outcome Demo.num :=
  match valid_values data with
  | [] => Raised (ValueError "zero-size array to reduction operation")
  | q :: qs =>
      Returned (Demo.Fin (fold_left Qplus qs q / inject_Z (Z.of_nat (length (q :: qs)))))
  end.

Definition stat_line (k : string) (v : Demo.num) : outcome string :=
  Returned (String.append k (String.append " " (render v))).

Definition slib : ScriptLibrary Demo.num Demo.affine :=
  {| exn_str := message;
     json_dumps := dumps;
     plt_imported := true;
     path_str := fun p => p;
     path_exists := exists_on_disk;
     profile_items := fun _ => [("driver", "GTiff"); ("width", "10"); ("height", "10")];
     read_band := whole_band;
     np_nanmin := reduce Qmin;
     np_nanmean := mean;
     np_nanmax := reduce Qmax;
     format_stat := stat_line |}.

(** the same without matplotlib *)
Definition slib_headless : ScriptLibrary Demo.num Demo.affine :=
  {| exn_str := message;
     json_dumps := dumps;
     plt_imported := false;
     path_str := fun p => p;
     path_exists := exists_on_disk;
     profile_items := fun _ => [("driver", "GTiff"); ("width", "10"); ("height", "10")];
     read_band := whole_band;
     np_nanmin := reduce Qmin;
     np_nanmean := mean;
     np_nanmax := reduce Qmax;
     format_stat := stat_line |}.

(** the state after geocoding the one address the demo geocoder knows *)
Definition s_cafe : State Demo.num Demo.affine :=
  snd (_geocode Demo.lib "Equator Cafe" Demo.s0).

(** the state after a failed geocoding *)
Definition s_nowhere : State Demo.num Demo.affine :=
  snd (_geocode Demo.lib "Nowhere" Demo.s0).

(** the handle for the projected raster, and the state its acquisition leaves *)
Definition utm_view : Raster Demo.num Demo.affine :=
  {| crs := Some (EPSG 4326);
     transform := Demo.grid_transform;
     raster_width := 10;
     raster_height := 10;
     bounds := {| left := Demo.Fin 0; bottom := Demo.Fin 0;
                  right := Demo.Fin 10; top := Demo.Fin 10 |};
     nodata := Some (Demo.Fin Demo.nodata_value);
     sample := Demo.grid_sample;
     read := Demo.grid_read |}.
Definition utm : Dataset Demo.num Demo.affine :=
  WarpedVRT 1 (DatasetReader 0 (Demo.grid (Some (EPSG 32633)))) (EPSG 4326) utm_view.

(** a box that touches the raster's east edge from outside *)
Definition east_box : Demo.num * Demo.num * Demo.num * Demo.num :=
  (Demo.Fin 8, Demo.Fin 10, Demo.Fin 12, Demo.Fin 12).
Definition east_raw : Window :=
  {| col_off := 10; row_off := -2; width := 2; height := 4 |}.

(** a box that overlaps the raster's west edge by a fifth of a degree *)
Definition west_box : Demo.num * Demo.num * Demo.num * Demo.num :=
  (Demo.Fin 8, Demo.Fin (-1 # 2), Demo.Fin 9, Demo.Fin (1 # 5)).

(** the state after the first acquisition of the projected raster *)
Definition s_utm : State Demo.num Demo.affine :=
  snd (_get_dataset Demo.lib "/work/utm.tif" Demo.s0).

(** the state after the geocoder timed out on an address *)
Definition s_slow : State Demo.num Demo.affine :=
  snd (_geocode Demo.lib "Slow Lane" Demo.s0).

End DemoScripts.

(** * Properties *)

Section Properties.

Context {float Affine : Type} (L : Library float Affine).

Local Abbreviation State := (State float Affine).
Local Abbreviation Dataset := (Dataset float Affine).
Local Abbreviation Raster := (Raster float Affine).

Local Arguments filled : simpl never.

(** the last branch of the bounding-box query: the fill may raise *)
Ltac fill_cases :=
  try reflexivity;
  cbv [bind lift ret];
  match goal with
  | |- context [filled L ?data ?fill] => destruct (filled L data fill)
  end;
  reflexivity.

(** ** Running the monad *)

Lemma bind_returned {A B} (m : M float Affine A) (k : A -> M float Affine B) s a s' :
  m s = (Returned a, s') -> bind m k s = k a s'.
Proof. unfold bind. intros ->. reflexivity. Qed.

Lemma bind_raised {A B} (m : M float Affine A) (k : A -> M float Affine B) s e s' :
  m s = (Raised e, s') -> bind m k s = (Raised e, s').
Proof. unfold bind. intros ->. reflexivity. Qed.

(** a relation between the state before and after a computation that
    holds of every step holds of the whole *)
Lemma bind_rel (R : State -> State -> Prop) {A B}
      (m : M float Affine A) (k : A -> M float Affine B) :
  (forall s1 s2 s3, R s1 s2 -> R s2 s3 -> R s1 s3) ->
  (forall s, R s (snd (m s))) ->
  (forall a s, R s (snd (k a s))) ->
  forall s, R s (snd (bind m k s)).
Proof.
  intros Htrans Hm Hk s. unfold bind.
  specialize (Hm s). destruct (m s) as [[a|e] s']; simpl in *.
  - eapply Htrans; [exact Hm | apply Hk].
  - exact Hm.
Qed.

(** ** The dataset cache only grows, and only [_get_dataset] writes it *)

Lemma cache_grows_refl (s : State) : cache_grows s s.
Proof. unfold cache_grows. reflexivity. Qed.

Lemma cache_grows_trans (s1 s2 s3 : State) :
  cache_grows s1 s2 -> cache_grows s2 s3 -> cache_grows s1 s3.
Proof. unfold cache_grows. intros H1 H2. etrans; eassumption. Qed.

Lemma cache_grows_lookup (s s' : State) key ds :
  cache_grows s s' ->
  dataset_cache s !! key = Some ds -> dataset_cache s' !! key = Some ds.
Proof. unfold cache_grows. intros Hsub Hl. eapply lookup_weaken; eassumption. Qed.

(** the five ways a call of [_get_dataset] can go *)

Lemma get_dataset_hit path s ds :
  dataset_cache s !! expanduser_resolve L path = Some ds ->
  _get_dataset L path s = (Returned ds, s).
Proof.
  intros Hhit. unfold _get_dataset, bind, _get_dataset_cache_get.
  rewrite Hhit. reflexivity.
Qed.

Lemma get_dataset_unreadable path s :
  dataset_cache s !! expanduser_resolve L path = None ->
  disk L (expanduser_resolve L path) = None ->
  _get_dataset L path s = (Raised (RasterioIOError (expanduser_resolve L path)), s).
Proof.
  intros Hmiss Hdisk.
  unfold _get_dataset, bind, _get_dataset_cache_get, rasterio_open.
  rewrite Hmiss, Hdisk. reflexivity.
Qed.

Lemma get_dataset_no_crs path s r :
  dataset_cache s !! expanduser_resolve L path = None ->
  disk L (expanduser_resolve L path) = Some r ->
  crs r = None ->
  _get_dataset L path s =
  (Raised (RuntimeError "Raster has no CRS – cannot locate coordinates."),
   {| dataset_cache := dataset_cache s;
      geolocator_cache := geolocator_cache s;
      geocode_lru := geocode_lru s;
      next_oid := S (next_oid s);
      log := EvOpen (expanduser_resolve L path) (next_oid s) :: log s |}).
Proof.
  intros Hmiss Hdisk Hcrs.
  unfold _get_dataset, bind, _get_dataset_cache_get, rasterio_open.
  rewrite Hmiss, Hdisk. cbn. rewrite Hcrs. reflexivity.
Qed.

Lemma get_dataset_native path s r c :
  dataset_cache s !! expanduser_resolve L path = None ->
  disk L (expanduser_resolve L path) = Some r ->
  crs r = Some c ->
  epsg_ne (to_epsg c) 4326 = false ->
  _get_dataset L path s =
  (Returned (DatasetReader (next_oid s) r),
   {| dataset_cache :=
        <[expanduser_resolve L path := DatasetReader (next_oid s) r]> (dataset_cache s);
      geolocator_cache := geolocator_cache s;
      geocode_lru := geocode_lru s;
      next_oid := S (next_oid s);
      log := EvOpen (expanduser_resolve L path) (next_oid s) :: log s |}).
Proof.
  intros Hmiss Hdisk Hcrs Hepsg.
  unfold _get_dataset, bind, _get_dataset_cache_get, rasterio_open.
  rewrite Hmiss, Hdisk. cbn. rewrite Hcrs, Hepsg. reflexivity.
Qed.

Lemma get_dataset_warped path s r c view :
  dataset_cache s !! expanduser_resolve L path = None ->
  disk L (expanduser_resolve L path) = Some r ->
  crs r = Some c ->
  epsg_ne (to_epsg c) 4326 = true ->
  gdal_warp L r (EPSG 4326) = Returned view ->
  _get_dataset L path s =
  (Returned (WarpedVRT (S (next_oid s)) (DatasetReader (next_oid s) r) (EPSG 4326) view),
   {| dataset_cache :=
        <[expanduser_resolve L path :=
            WarpedVRT (S (next_oid s)) (DatasetReader (next_oid s) r) (EPSG 4326) view]>
          (dataset_cache s);
      geolocator_cache := geolocator_cache s;
      geocode_lru := geocode_lru s;
      next_oid := S (S (next_oid s));
      log := EvWarp (next_oid s) (S (next_oid s))
             :: EvOpen (expanduser_resolve L path) (next_oid s) :: log s |}).
Proof.
  intros Hmiss Hdisk Hcrs Hepsg Hwarp.
  unfold _get_dataset, bind, _get_dataset_cache_get, rasterio_open.
  rewrite Hmiss, Hdisk. cbn. rewrite Hcrs, Hepsg.
  unfold new_WarpedVRT, bind, lift. cbn. rewrite Hwarp. reflexivity.
Qed.

(** the [WarpedVRT] constructor raises: the raster has been opened, nothing
    is stored *)
Lemma get_dataset_warp_failed path s r c e :
  dataset_cache s !! expanduser_resolve L path = None ->
  disk L (expanduser_resolve L path) = Some r ->
  crs r = Some c ->
  epsg_ne (to_epsg c) 4326 = true ->
  gdal_warp L r (EPSG 4326) = Raised e ->
  _get_dataset L path s =
  (Raised e,
   {| dataset_cache := dataset_cache s;
      geolocator_cache := geolocator_cache s;
      geocode_lru := geocode_lru s;
      next_oid := S (next_oid s);
      log := EvOpen (expanduser_resolve L path) (next_oid s) :: log s |}).
Proof.
  intros Hmiss Hdisk Hcrs Hepsg Hwarp.
  unfold _get_dataset, bind, _get_dataset_cache_get, rasterio_open.
  rewrite Hmiss, Hdisk. cbn. rewrite Hcrs, Hepsg.
  unfold new_WarpedVRT, bind, lift. cbn. rewrite Hwarp. reflexivity.
Qed.

Lemma epsg_ne_false c : epsg_ne (to_epsg c) 4326 = false <-> to_epsg c = Some 4326.
Proof.
  unfold epsg_ne. destruct (to_epsg c) as [code|]; [|split; discriminate].
  rewrite negb_false_iff, Z.eqb_eq. split; [intros ->; reflexivity | congruence].
Qed.

Lemma epsg_ne_true c : epsg_ne (to_epsg c) 4326 = true <-> to_epsg c <> Some 4326.
Proof.
  rewrite <- epsg_ne_false. destruct (epsg_ne (to_epsg c) 4326); split; congruence.
Qed.

(** case analysis on a call of [_get_dataset], rewriting it to its result *)
Ltac get_dataset_cases path s :=
  let ds := fresh "ds" in let r := fresh "r" in let c := fresh "c" in
  let Hc := fresh "Hcache" in let Hd := fresh "Hdisk" in
  let Hcrs := fresh "Hcrs" in let He := fresh "Hepsg" in
  let view := fresh "view" in let ew := fresh "ew" in let Hw := fresh "Hwarp" in
  destruct (dataset_cache s !! expanduser_resolve L path) as [ds|] eqn:Hc;
  [ rewrite (get_dataset_hit path s ds Hc)
  | destruct (disk L (expanduser_resolve L path)) as [r|] eqn:Hd;
    [ destruct (crs r) as [c|] eqn:Hcrs;
      [ destruct (epsg_ne (to_epsg c) 4326) eqn:He;
        [ destruct (gdal_warp L r (EPSG 4326)) as [view|ew] eqn:Hw;
          [ rewrite (get_dataset_warped path s r c view Hc Hd Hcrs He Hw)
          | rewrite (get_dataset_warp_failed path s r c ew Hc Hd Hcrs He Hw) ]
        | rewrite (get_dataset_native path s r c Hc Hd Hcrs He) ]
      | rewrite (get_dataset_no_crs path s r Hc Hd Hcrs) ]
    | rewrite (get_dataset_unreadable path s Hc Hd) ] ].

Lemma get_dataset_grows path s : cache_grows s (snd (_get_dataset L path s)).
Proof.
  unfold cache_grows.
  get_dataset_cases path s; simpl; try reflexivity;
    apply insert_subseteq; assumption.
Qed.

(** whatever [_get_dataset] returns is what the cache now holds under the
    normalised path *)
Lemma get_dataset_returns_cached path s ds s' :
  _get_dataset L path s = (Returned ds, s') ->
  dataset_cache s' !! expanduser_resolve L path = Some ds.
Proof.
  get_dataset_cases path s; intros Heq; inversion Heq; subst; simpl;
    try assumption; apply lookup_insert_eq.
Qed.

Lemma get_dataset_opens path s :
  (count_opens (log (snd (_get_dataset L path s))) <= S (count_opens (log s)))%nat.
Proof. get_dataset_cases path s; simpl; lia. Qed.

Lemma get_dataset_reads path s :
  count_reads (log (snd (_get_dataset L path s))) = count_reads (log s).
Proof. get_dataset_cases path s; reflexivity. Qed.

(** ** The invariant of the two caches *)

Lemma Inv_initial : Inv L (initial_state float Affine).
Proof.
  split.
  - intros key ds Hl. simpl in Hl. rewrite lookup_empty in Hl. discriminate.
  - constructor.
Qed.

Lemma good_step_trans s1 s2 s3 : good_step L s1 s2 -> good_step L s2 s3 -> good_step L s1 s3.
Proof.
  intros [G1 I1] [G2 I2]. split; [eapply cache_grows_trans; eassumption | auto].
Qed.

Lemma good_step_frame s s' :
  dataset_cache s' = dataset_cache s -> geocode_lru s' = geocode_lru s ->
  good_step L s s'.
Proof.
  intros Hc Hl. split.
  - unfold cache_grows. rewrite Hc. reflexivity.
  - unfold Inv, cache_inv, lru_inv. rewrite Hc, Hl. auto.
Qed.

Lemma good_step_refl s : good_step L s s.
Proof. apply good_step_frame; reflexivity. Qed.

Lemma handle_ok_native key r c oid :
  disk L key = Some r -> crs r = Some c -> epsg_ne (to_epsg c) 4326 = false ->
  handle_ok L key (DatasetReader oid r).
Proof.
  intros Hd Hcrs He. exists r, c. repeat split; try assumption.
  left. split; [apply epsg_ne_false; assumption | eexists; reflexivity].
Qed.

Lemma handle_ok_warped key r c oid oid' view :
  disk L key = Some r -> crs r = Some c -> epsg_ne (to_epsg c) 4326 = true ->
  gdal_warp L r (EPSG 4326) = Returned view ->
  handle_ok L key (WarpedVRT oid (DatasetReader oid' r) (EPSG 4326) view).
Proof.
  intros Hd Hcrs He Hw. exists r, c. repeat split; try assumption.
  right. split; [apply epsg_ne_true; assumption|].
  exists oid, oid', view. split; [exact Hw | reflexivity].
Qed.

Lemma cache_inv_insert (m : gmap string Dataset) path ds :
  (forall key d, m !! key = Some d ->
     (exists p, key = expanduser_resolve L p) /\ handle_ok L key d) ->
  handle_ok L (expanduser_resolve L path) ds ->
  forall key d, <[expanduser_resolve L path := ds]> m !! key = Some d ->
     (exists p, key = expanduser_resolve L p) /\ handle_ok L key d.
Proof.
  intros Hm Hds key d Hl.
  destruct (decide (expanduser_resolve L path = key)) as [<-|Hne].
  - rewrite lookup_insert_eq in Hl. inversion Hl; subst. split; [eexists; reflexivity | assumption].
  - rewrite lookup_insert_ne in Hl by assumption. apply Hm; assumption.
Qed.

Lemma get_dataset_good path s : good_step L s (snd (_get_dataset L path s)).
Proof.
  split; [apply get_dataset_grows|].
  intros [Hc Hl].
  get_dataset_cases path s; simpl; split; try assumption; unfold cache_inv; simpl.
  - apply cache_inv_insert; [exact Hc | eapply handle_ok_warped; eassumption].
  - apply cache_inv_insert; [exact Hc | eapply handle_ok_native; eassumption].
Qed.

(** ** [_geocode] *)

Local Arguments lru_store : simpl never.
Local Arguments lru_touch : simpl never.

Lemma lru_find_In {V} k (v : V) c : lru_find k c = Some v -> In (k, v) c.
Proof.
  induction c as [|[k' v'] c IH]; simpl; [discriminate|].
  destruct (String.eqb k k') eqn:E.
  - apply String.eqb_eq in E. intros [= ->]. left. congruence.
  - intros H. right. auto.
Qed.

Lemma Forall_lru_remove {V} (P : string * V -> Prop) k c :
  Forall P c -> Forall P (lru_remove k c).
Proof.
  induction 1 as [|[k' v'] c Hx Hc IH]; simpl; [constructor|].
  destruct (String.eqb k k'); [assumption | constructor; assumption].
Qed.

Lemma Forall_firstn {V} (P : V -> Prop) n c : Forall P c -> Forall P (firstn n c).
Proof.
  intros H. revert n. induction H as [|x c Hx Hc IH]; intros [|n]; simpl;
    constructor; auto.
Qed.

Lemma geocode_body_no_geopy address s :
  geopy_installed L = false ->
  geocode_body L address s =
  (Raised (RuntimeError
     "geopy is required for address lookup. Install via `pip install geopy`."), s).
Proof. intros H. unfold geocode_body. rewrite H. reflexivity. Qed.

(** the geocoder body leaves the dataset cache and the memo table alone, and
    what it returns or raises is decided by the geocoder's answer *)
Lemma geocode_body_spec address s :
  geopy_installed L = true ->
  exists s',
    geocode_body L address s =
    (match nominatim_geocode L (count_geocodes (log s)) "soil-temp-lookup" address 5 with
     | Returned (Some v) => Returned v
     | Returned None =>
         Raised (ValueError (String.append "Address not found: " (py_repr L address)))
     | Raised e => Raised e
     end, s') /\
    dataset_cache s' = dataset_cache s /\ geocode_lru s' = geocode_lru s.
Proof.
  intros H. unfold geocode_body, bind, fresh_oid, emit, geolocator_cache_set, lift, ret, raise.
  rewrite H. simpl.
  destruct (geolocator_cache s !! "nominatim"); simpl;
    destruct (nominatim_geocode L (count_geocodes (log s)) "soil-temp-lookup" address 5)
      as [[[lat lon]|]|e];
    eexists; (split; [reflexivity | split; reflexivity]).
Qed.

Lemma geocode_good address s : good_step L s (snd (_geocode L address s)).
Proof.
  unfold _geocode.
  destruct (lru_find address (geocode_lru s)) as [v|] eqn:Hfind; simpl.
  - split; [unfold cache_grows; simpl; reflexivity|].
    intros [Hc Hl]. split; [exact Hc|].
    unfold lru_inv in *. simpl. unfold lru_touch. constructor.
    + apply lru_find_In in Hfind. rewrite Forall_forall in Hl.
      apply Hl. apply list_elem_of_In. exact Hfind.
    + apply Forall_lru_remove. exact Hl.
  - destruct (geopy_installed L) eqn:Hgeo.
    + destruct (geocode_body_spec address s Hgeo) as (s' & -> & Hc' & Hl').
      destruct (nominatim_geocode L (count_geocodes (log s)) "soil-temp-lookup" address 5)
        as [[v|]|e] eqn:Hans;
        simpl; try (apply good_step_frame; assumption).
      split.
      * unfold cache_grows. simpl. rewrite Hc'. reflexivity.
      * intros [Hc Hl]. split.
        -- unfold cache_inv. simpl. rewrite Hc'. exact Hc.
        -- unfold lru_inv in *. simpl. unfold lru_store. apply Forall_firstn.
           constructor; [split; [assumption | eexists; exact Hans] | rewrite Hl'; exact Hl].
    + rewrite (geocode_body_no_geopy address s Hgeo). simpl. apply good_step_refl.
Qed.

(** ** The public functions keep the invariant *)

Lemma resolve_coord_good ac s : good_step L s (snd (resolve_coord L ac s)).
Proof.
  destruct ac as [a|lat lon]; simpl; [apply geocode_good | apply good_step_refl].
Qed.

Lemma point_good ac path s : good_step L s (snd (get_soil_temperature L ac path s)).
Proof.
  unfold get_soil_temperature.
  apply bind_rel; [apply good_step_trans | apply resolve_coord_good |].
  intros [lat lon]. apply bind_rel; [apply good_step_trans | apply get_dataset_good |].
  intros ds. apply bind_rel; [apply good_step_trans | |].
  - intros s1. apply good_step_frame; reflexivity.
  - intros [|[|value arr] rest] s1; apply good_step_refl.
Qed.

Lemma bbox_good bbox path masked s :
  good_step L s (snd (get_soil_temperatures_in_bbox L bbox path masked s)).
Proof.
  destruct bbox as [[[lat_min lon_min] lat_max] lon_max].
  unfold get_soil_temperatures_in_bbox.
  apply bind_rel; [apply good_step_trans | apply get_dataset_good |].
  intros ds s1.
  destruct (outside _ _ _ _ _ _); [apply good_step_refl|].
  revert s1.
  apply bind_rel; [apply good_step_trans | intros; apply good_step_refl |]. intros w0.
  apply bind_rel; [apply good_step_trans | intros; apply good_step_refl |]. intros w1.
  apply bind_rel; [apply good_step_trans | intros; apply good_step_refl |]. intros w2.
  apply bind_rel; [apply good_step_trans | intros; apply good_step_refl |]. intros w s1.
  destruct (_ || _); [apply good_step_refl|].
  revert s1.
  apply bind_rel; [apply good_step_trans | |].
  - intros s1. unfold ds_read, bind, emit, lift. simpl.
    apply good_step_frame; reflexivity.
  - intros data s1. destruct (mask_all data); [|destruct masked];
      try apply good_step_refl.
    revert s1.
    apply bind_rel; [apply good_step_trans | |]; intros; apply good_step_refl.
Qed.

Lemma run_call_good c s : good_step L s (run_call L c s).
Proof.
  destruct c; simpl;
    [apply get_dataset_good | apply geocode_good | apply point_good | apply bbox_good].
Qed.

Lemma reachable_Inv s : reachable L s -> Inv L s.
Proof.
  induction 1 as [|s c Hr IH]; [apply Inv_initial|].
  apply (run_call_good c s). exact IH.
Qed.

(** ** Windows *)

(** what [Window.intersection] returns lies inside its second argument and
    has no negative length *)
Lemma intersection_within (a b w : Window) :
  intersection a b = Returned w ->
  (col_off b <= col_off w /\ row_off b <= row_off w /\
   0 <= width w /\ 0 <= height w /\
   (0 < width w -> col_off w + width w <= col_off b + width b) /\
   (0 < height w -> row_off w + height w <= row_off b + height b))%Q.
Proof.
  unfold intersection. destruct (negb (intersect a b)); [discriminate|].
  intros [= <-]. unfold row_range, col_range. cbn [fst snd col_off row_off width height].
  set (cstart := Qmax (col_off a) (col_off b)).
  set (cstop := Qmin (col_off a + width a) (col_off b + width b)).
  set (rstart := Qmax (row_off a) (row_off b)).
  set (rstop := Qmin (row_off a + height a) (row_off b + height b)).
  pose proof (Q.le_max_r (col_off a) (col_off b)) as Hc0.
  pose proof (Q.le_max_r (row_off a) (row_off b)) as Hr0.
  pose proof (Q.le_min_r (col_off a + width a) (col_off b + width b)) as Hc1.
  pose proof (Q.le_min_r (row_off a + height a) (row_off b + height b)) as Hr1.
  pose proof (Q.le_max_r (cstop - cstart) 0) as Hw0.
  pose proof (Q.le_max_r (rstop - rstart) 0) as Hh0.
  fold cstart in Hc0. fold rstart in Hr0. fold cstop in Hc1. fold rstop in Hr1.
  repeat split; try assumption.
  - intros Hpos.
    destruct (Q.max_spec (cstop - cstart) 0) as [[Hlt Heq]|[Hle Heq]];
      rewrite Heq in *; lra.
  - intros Hpos.
    destruct (Q.max_spec (rstop - rstart) 0) as [[Hlt Heq]|[Hle Heq]];
      rewrite Heq in *; lra.
Qed.

Lemma empty_window_test (w : Window) :
  Qle_bool (width w) 0 || Qle_bool (height w) 0 = false <->
  (0 < width w /\ 0 < height w)%Q.
Proof.
  rewrite orb_false_iff.
  assert (forall x : Q, Qle_bool x 0 = false <-> (0 < x)%Q) as Hx.
  { intros x. destruct (Qle_bool x 0) eqn:E.
    - apply Qle_bool_iff in E. split; [discriminate | intros; lra].
    - split; [intros _|reflexivity].
      apply Qnot_le_lt. intros Hle. apply Qle_bool_iff in Hle. congruence. }
  rewrite !Hx. reflexivity.
Qed.

(** ** The point query *)

(** C1: once the point is resolved, the dataset acquired and a pixel value
    sampled, [get_soil_temperature] returns [None] when the raster declares
    a nodata value and [numpy.isclose] holds between the sample and it,
    returns [None] when the sample is NaN, and otherwise returns the sample
    converted by [float]. *)
Theorem C1_nodata_policy ac path s lat lon s1 ds s2 value bands points :
  resolve_coord L ac s = (Returned (lat, lon), s1) ->
  _get_dataset L path s1 = (Returned ds, s2) ->
  sample (raster_of ds) [(lon, lat)] = Returned ((value :: bands) :: points) ->
  exists result s3,
    get_soil_temperature L ac path s = (Returned result, s3) /\
    (forall nd, nodata (raster_of ds) = Some nd ->
                np_isclose L value nd = true -> result = None) /\
    (np_isnan L value = true -> result = None) /\
    ((forall nd, nodata (raster_of ds) = Some nd -> np_isclose L value nd = false) ->
     np_isnan L value = false -> result = Some (py_float L value)).
Proof.
  intros Hres Hds Hsample.
  exists (nodata_policy L ds value). eexists. split.
  - unfold get_soil_temperature.
    rewrite (bind_returned _ _ _ _ _ Hres).
    rewrite (bind_returned _ _ _ _ _ Hds).
    unfold ds_sample, bind, emit, lift, ret. rewrite Hsample. reflexivity.
  - unfold nodata_policy. repeat split.
    + intros nd Hnd Hclose. rewrite Hnd, Hclose. reflexivity.
    + intros Hnan. rewrite Hnan.
      destruct (nodata (raster_of ds)) as [nd|]; [destruct (np_isclose L value nd)|];
        reflexivity.
    + intros Hfar Hnan. rewrite Hnan.
      destruct (nodata (raster_of ds)) as [nd|]; [rewrite (Hfar nd eq_refl)|];
        reflexivity.
Qed.

(** ** The bounding-box query *)

(** C3: with the dataset acquired, a box whose east edge is west of the
    raster's left edge, or whose west edge is east of its right edge, or
    whose north edge is south of its bottom edge, or whose south edge is
    north of its top edge, makes [get_soil_temperatures_in_bbox] return
    [None] in the very state the acquisition left: nothing is computed or
    read after the test. *)
Theorem C3_fast_reject south west north east path masked s ds s1 :
  _get_dataset L path s = (Returned ds, s1) ->
  float_lt L east (left (bounds (raster_of ds))) = true \/
  float_lt L (right (bounds (raster_of ds))) west = true \/
  float_lt L north (bottom (bounds (raster_of ds))) = true \/
  float_lt L (top (bounds (raster_of ds))) south = true ->
  get_soil_temperatures_in_bbox L (south, west, north, east) path masked s
  = (Returned None, s1) /\
  count_reads (log s1) = count_reads (log s).
Proof.
  intros Hds Hout. split.
  - unfold get_soil_temperatures_in_bbox.
    rewrite (bind_returned _ _ _ _ _ Hds).
    assert (outside L (bounds (raster_of ds)) south west north east = true) as ->.
    { unfold outside. rewrite !orb_true_iff. tauto. }
    reflexivity.
  - pose proof (get_dataset_reads path s) as Hr. rewrite Hds in Hr. exact Hr.
Qed.

(** the query up to the clipped window *)
Lemma bbox_upto_window south west north east path masked s ds s1 w0 w1 w2 :
  _get_dataset L path s = (Returned ds, s1) ->
  outside L (bounds (raster_of ds)) south west north east = false ->
  from_bounds L west south east north (transform (raster_of ds)) = Returned w0 ->
  round_offsets L w0 = Returned w1 ->
  round_lengths L w1 = Returned w2 ->
  get_soil_temperatures_in_bbox L (south, west, north, east) path masked s =
  match intersection w2 (mkWindow 0 0 (inject_Z (raster_width (raster_of ds)))
                                      (inject_Z (raster_height (raster_of ds)))) with
  | Raised e => (Raised e, s1)
  | Returned window =>
      if Qle_bool (width window) 0 || Qle_bool (height window) 0
      then (Returned None, s1)
      else
        bind (ds_read ds 1 window)
             (fun data =>
                if mask_all data then ret None
                else if masked then ret (Some (MaskedResult data))
                else bind (lift (filled L data (np_nan L)))
                          (fun filled => ret (Some (PlainResult (astype_float L filled)))))
             s1
  end.
Proof.
  intros Hds Hout Hfb Hro Hrl.
  unfold get_soil_temperatures_in_bbox.
  rewrite (bind_returned _ _ _ _ _ Hds). rewrite Hout.
  unfold lift at 1 2 3 4. unfold bind at 1 2 3 4.
  rewrite Hfb, Hro, Hrl.
  destruct (intersection w2 _) as [window|e]; [|reflexivity].
  destruct (_ || _); reflexivity.
Qed.

(** X23: for a box that passes the fast-reject test and whose rounded
    window [Window.intersection] accepts, the window handed to [read] is
    the intersection with [Window(0, 0, width, height)]: its offsets are
    not negative, its lengths are positive, and it ends inside the raster;
    and when the intersection has a width or height of zero the function
    returns [None] and reads nothing. *)
Theorem read_window_lies_inside_raster south west north east path masked s ds s1 w0 w1 w2 window :
  _get_dataset L path s = (Returned ds, s1) ->
  outside L (bounds (raster_of ds)) south west north east = false ->
  from_bounds L west south east north (transform (raster_of ds)) = Returned w0 ->
  round_offsets L w0 = Returned w1 ->
  round_lengths L w1 = Returned w2 ->
  intersection w2 (mkWindow 0 0 (inject_Z (raster_width (raster_of ds)))
                                (inject_Z (raster_height (raster_of ds))))
  = Returned window ->
  ((width window <= 0 \/ height window <= 0)%Q ->
   get_soil_temperatures_in_bbox L (south, west, north, east) path masked s
   = (Returned None, s1)) /\
  ((0 < width window /\ 0 < height window)%Q ->
   log (snd (get_soil_temperatures_in_bbox L (south, west, north, east) path masked s))
   = EvRead (oid_of ds) window :: log s1 /\
   (0 <= col_off window /\ 0 <= row_off window /\
    col_off window + width window <= inject_Z (raster_width (raster_of ds)) /\
    row_off window + height window <= inject_Z (raster_height (raster_of ds)))%Q).
Proof.
  intros Hds Hout Hfb Hro Hrl Hint.
  rewrite (bbox_upto_window _ _ _ _ _ masked _ _ _ _ _ _ Hds Hout Hfb Hro Hrl), Hint.
  split.
  - intros Hempty.
    destruct (Qle_bool (width window) 0 || Qle_bool (height window) 0) eqn:E;
      [reflexivity|].
    apply empty_window_test in E. lra.
  - intros Hpos. pose proof Hpos as [Hw Hh].
    apply empty_window_test in Hpos. rewrite Hpos. split.
    + unfold ds_read, bind, emit, lift. simpl.
      destruct (read (raster_of ds) 1 window) as [data|e]; simpl; [|reflexivity].
      destruct (mask_all data); [|destruct masked]; fill_cases.
    + apply intersection_within in Hint. simpl in Hint.
      destruct Hint as (Hc & Hr & _ & _ & Hcw & Hrh).
      specialize (Hcw Hw). specialize (Hrh Hh). repeat split; lra.
Qed.

(** [data.mask.all()] holds exactly when every cell is masked *)
Lemma mask_all_spec (data : MaskedArray float) :
  mask_all data = true <->
  (forall row cell, In row data -> In cell row -> snd cell = true).
Proof.
  unfold mask_all. rewrite forallb_forall. split.
  - intros H row cell Hrow Hcell.
    specialize (H row Hrow). rewrite forallb_forall in H. apply H. exact Hcell.
  - intros H row Hrow. apply forallb_forall. intros cell Hcell. eapply H; eassumption.
Qed.

(** [data.filled(fill).astype(float)], when the dtype of [data] accepts the
    fill value as [fv], keeps the shape; a masked cell becomes [fv] and an
    unmasked one its own value, both through [astype(float)] *)
Lemma filled_astype_entries (data : MaskedArray float) fill fv :
  np_check_fill_value L data fill = Returned fv ->
  exists a,
    filled L data fill = Returned a /\
    length (astype_float L a) = length data /\
    forall i row,
      nth_error data i = Some row ->
      exists row',
        nth_error (astype_float L a) i = Some row' /\
        length row' = length row /\
        forall j v m,
          nth_error row j = Some (v, m) ->
          nth_error row' j = Some (py_float L (if m then fv else v)).
Proof.
  intros Hfv. unfold filled. rewrite Hfv. eexists. split; [reflexivity|].
  unfold astype_float. split.
  - rewrite !length_map. reflexivity.
  - intros i row Hrow. eexists. split; [|split].
    + rewrite map_map. apply map_nth_error. exact Hrow.
    + rewrite !length_map. reflexivity.
    + intros j v m Hcell. rewrite map_map.
      rewrite (map_nth_error _ _ _ Hcell). simpl. destruct m; reflexivity.
Qed.

(** X24: when the clipped window is not empty and [read] returns the masked
    array [data]: if every cell of [data] is masked the result is [None];
    otherwise with [masked=True] it is [data] itself, mask included; with
    [masked=False] the query raises what [filled] raises when the dtype of
    [data] cannot hold NaN, and otherwise returns a plain array of the same
    shape whose entries are the converted NaN where [data] is masked and
    the value of [data] elsewhere, each through [astype(float)]. *)
Theorem bbox_result_masked_or_filled
        south west north east path masked s ds s1 w0 w1 w2 window data :
  _get_dataset L path s = (Returned ds, s1) ->
  outside L (bounds (raster_of ds)) south west north east = false ->
  from_bounds L west south east north (transform (raster_of ds)) = Returned w0 ->
  round_offsets L w0 = Returned w1 ->
  round_lengths L w1 = Returned w2 ->
  intersection w2 (mkWindow 0 0 (inject_Z (raster_width (raster_of ds)))
                                (inject_Z (raster_height (raster_of ds))))
  = Returned window ->
  (0 < width window /\ 0 < height window)%Q ->
  read (raster_of ds) 1 window = Returned data ->
  ((forall row cell, In row data -> In cell row -> snd cell = true) ->
   fst (get_soil_temperatures_in_bbox L (south, west, north, east) path masked s)
   = Returned None) /\
  (~ (forall row cell, In row data -> In cell row -> snd cell = true) ->
   (masked = true ->
    fst (get_soil_temperatures_in_bbox L (south, west, north, east) path masked s)
    = Returned (Some (MaskedResult data))) /\
   (masked = false ->
    (forall e,
        np_check_fill_value L data (np_nan L) = Raised e ->
        fst (get_soil_temperatures_in_bbox L (south, west, north, east) path masked s)
        = Raised e) /\
    (forall fv,
        np_check_fill_value L data (np_nan L) = Returned fv ->
        exists a,
          fst (get_soil_temperatures_in_bbox L (south, west, north, east) path masked s)
          = Returned (Some (PlainResult a)) /\
          length a = length data /\
          forall i row,
            nth_error data i = Some row ->
            exists row',
              nth_error a i = Some row' /\
              length row' = length row /\
              forall j v m,
                nth_error row j = Some (v, m) ->
                nth_error row' j = Some (py_float L (if m then fv else v))))).
Proof.
  intros Hds Hout Hfb Hro Hrl Hint Hpos Hread.
  rewrite (bbox_upto_window _ _ _ _ _ masked _ _ _ _ _ _ Hds Hout Hfb Hro Hrl), Hint.
  apply empty_window_test in Hpos. rewrite Hpos.
  unfold ds_read, bind, emit, lift. simpl. rewrite Hread.
  destruct (mask_all data) eqn:Hall.
  - split; [reflexivity|].
    intros Hsome. exfalso. apply Hsome. apply mask_all_spec. exact Hall.
  - split; [intros H; apply mask_all_spec in H; congruence|].
    intros _. split; intros ->; [reflexivity|]. split.
    + intros e He. unfold filled. rewrite He. reflexivity.
    + intros fv Hfv.
      destruct (filled_astype_entries data (np_nan L) fv Hfv) as (a & Hfilled & Hshape).
      rewrite Hfilled. simpl. eexists. split; [reflexivity | exact Hshape].
Qed.

(** ** The dataset cache *)

(** C6: in every state the process can reach, a handle in the dataset cache
    reports the CRS EPSG:4326; it is the raster's own reader only when the
    raster's CRS is EPSG:4326 and otherwise a [WarpedVRT] to EPSG:4326
    around that reader; its key is a normalised path; and a call of the
    module keeps every entry as it is, so a normalised path has one handle
    for the life of the process. *)
Theorem C6_cache_invariant s :
  reachable L s ->
  (forall key ds,
      dataset_cache s !! key = Some ds ->
      (exists c, ds_crs ds = Some c /\ to_epsg c = Some 4326) /\
      handle_ok L key ds /\
      (exists path, key = expanduser_resolve L path)) /\
  (forall call key ds,
      dataset_cache s !! key = Some ds ->
      dataset_cache (run_call L call s) !! key = Some ds).
Proof.
  intros Hreach. split.
  - intros key ds Hl.
    destruct (reachable_Inv s Hreach) as [Hc _].
    destruct (Hc key ds Hl) as [Hkey Hok]. split; [|split; assumption].
    destruct Hok as (r & c & Hd & Hcrs &
                     [[He [oid ->]]|[He (oid & oid' & view & Hw & ->)]]); simpl.
    + exists c. split; assumption.
    + exists (EPSG 4326). split; reflexivity.
  - intros call key ds Hl.
    eapply cache_grows_lookup; [|exact Hl]. apply run_call_good.
Qed.

(** C7: when the raster behind the normalised path has no CRS, a call of
    [_get_dataset] that misses the cache raises
    [RuntimeError("Raster has no CRS ...")] and leaves the cache as it was;
    and in no state the process can reach is there an entry for that path. *)
Theorem C7_missing_crs path r :
  disk L (expanduser_resolve L path) = Some r ->
  crs r = None ->
  (forall s,
      dataset_cache s !! expanduser_resolve L path = None ->
      exists s',
        _get_dataset L path s
        = (Raised (RuntimeError "Raster has no CRS – cannot locate coordinates."), s') /\
        dataset_cache s' = dataset_cache s) /\
  (forall s, reachable L s -> dataset_cache s !! expanduser_resolve L path = None).
Proof.
  intros Hdisk Hcrs. split.
  - intros s Hmiss. rewrite (get_dataset_no_crs path s r Hmiss Hdisk Hcrs).
    eexists. split; reflexivity.
  - intros s Hreach.
    destruct (dataset_cache s !! expanduser_resolve L path) as [ds|] eqn:Hl; [|reflexivity].
    destruct (reachable_Inv s Hreach) as [Hc _].
    destruct (Hc _ _ Hl) as [_ (r' & c & Hd & Hcrs' & _)].
    congruence.
Qed.


(** a failed acquisition fails the same way when repeated *)
Lemma get_dataset_raises_again path s e s1 :
  _get_dataset L path s = (Raised e, s1) ->
  exists s2, _get_dataset L path s1 = (Raised e, s2).
Proof.
  get_dataset_cases path s; intros Heq; inversion Heq; subst; clear Heq.
  - eexists. eapply get_dataset_warp_failed; simpl; eassumption.
  - eexists. eapply get_dataset_no_crs; simpl; eassumption.
  - eexists. apply get_dataset_unreadable; assumption.
Qed.

(** the point query on a coordinate pair, in terms of the acquisition *)
Lemma point_coord_acquired lat lon path s ds s1 :
  _get_dataset L path s = (Returned ds, s1) ->
  get_soil_temperature L (Coord lat lon) path s =
  (sampled_answer L ds lat lon,
   {| dataset_cache := dataset_cache s1;
      geolocator_cache := geolocator_cache s1;
      geocode_lru := geocode_lru s1;
      next_oid := next_oid s1;
      log := EvSample (oid_of ds) :: log s1 |}).
Proof.
  intros Hds. unfold get_soil_temperature, resolve_coord, sampled_answer.
  unfold bind at 1. unfold ret at 1.
  rewrite (bind_returned _ _ _ _ _ Hds).
  unfold ds_sample, bind, emit, lift, ret.
  destruct (sample (raster_of ds) [(lon, lat)]) as [[|[|value bands] points]|e];
    reflexivity.
Qed.

Lemma point_coord_failed lat lon path s e s1 :
  _get_dataset L path s = (Raised e, s1) ->
  get_soil_temperature L (Coord lat lon) path s = (Raised e, s1).
Proof.
  intros Hds. unfold get_soil_temperature, resolve_coord.
  unfold bind at 1. unfold ret at 1.
  rewrite (bind_raised _ _ _ _ _ Hds). reflexivity.
Qed.

(** C9 as amended: two calls of [get_soil_temperature] with the same
    coordinate pair and path give the same result (the same value, [None],
    or the same exception); and when the first call acquires the dataset,
    the two calls together open the raster at most once. *)
Theorem C9_point_lookup_twice lat lon path s :
  let first := get_soil_temperature L (Coord lat lon) path s in
  let second := get_soil_temperature L (Coord lat lon) path (snd first) in
  fst second = fst first /\
  (forall ds s1,
      _get_dataset L path s = (Returned ds, s1) ->
      (count_opens (log (snd second)) <= S (count_opens (log s)))%nat).
Proof.
  cbv zeta.
  destruct (_get_dataset L path s) as [[ds|e] s1] eqn:Hfirst.
  - rewrite (point_coord_acquired lat lon path s ds s1 Hfirst). cbn [fst snd].
    pose proof (get_dataset_returns_cached _ _ _ _ Hfirst) as Hcached.
    match goal with
    | |- context [get_soil_temperature L _ path ?st] =>
        assert (_get_dataset L path st = (Returned ds, st)) as Hsecond
          by (apply get_dataset_hit; exact Hcached)
    end.
    rewrite (point_coord_acquired lat lon path _ ds _ Hsecond). cbn [fst snd log].
    split; [reflexivity|].
    intros ds' s1' _. simpl.
    pose proof (get_dataset_opens path s) as Ho. rewrite Hfirst in Ho. exact Ho.
  - rewrite (point_coord_failed lat lon path s e s1 Hfirst). cbn [fst snd].
    destruct (get_dataset_raises_again path s e s1 Hfirst) as [s2 Hsecond].
    rewrite (point_coord_failed lat lon path s1 e s2 Hsecond). cbn [fst snd].
    split; [reflexivity|].
    intros ds' s1' Hacq. discriminate.
Qed.

(** ** Errors *)

(** in a state the process can reach, an address is memoised only if geopy
    is there *)
Lemma reachable_memo address s v :
  reachable L s -> lru_find address (geocode_lru s) = Some v ->
  geopy_installed L = true.
Proof.
  intros Hreach Hfind. destruct (reachable_Inv s Hreach) as [_ Hl].
  unfold lru_inv in Hl. rewrite Forall_forall in Hl.
  apply lru_find_In, list_elem_of_In in Hfind. exact (proj1 (Hl _ Hfind)).
Qed.

Lemma point_address_failed address path s e s1 :
  _geocode L address s = (Raised e, s1) ->
  get_soil_temperature L (Address address) path s = (Raised e, s1).
Proof.
  intros Hg. unfold get_soil_temperature, resolve_coord.
  rewrite (bind_raised _ _ _ _ _ Hg). reflexivity.
Qed.

(** C8: without geopy, [_geocode] -- and so the point query on an address
    -- raises [RuntimeError("geopy is required ...")]; with geopy, when
    geocoding runs (the address is not in the memo table) and the geocoder
    answers this call that the address has no match, they raise
    [ValueError("Address not found: ...")]; the two exceptions differ, and
    in neither case is anything returned. *)
Theorem C8_geocode_errors address path s :
  reachable L s ->
  (geopy_installed L = false ->
   _geocode L address s
   = (Raised (RuntimeError
        "geopy is required for address lookup. Install via `pip install geopy`."), s) /\
   get_soil_temperature L (Address address) path s
   = (Raised (RuntimeError
        "geopy is required for address lookup. Install via `pip install geopy`."), s)) /\
  (geopy_installed L = true ->
   lru_find address (geocode_lru s) = None ->
   nominatim_geocode L (count_geocodes (log s)) "soil-temp-lookup" address 5
   = Returned None ->
   exists s',
     _geocode L address s
     = (Raised (ValueError (String.append "Address not found: " (py_repr L address))), s') /\
     get_soil_temperature L (Address address) path s
     = (Raised (ValueError (String.append "Address not found: " (py_repr L address))), s')) /\
  RuntimeError "geopy is required for address lookup. Install via `pip install geopy`."
  <> ValueError (String.append "Address not found: " (py_repr L address)).
Proof.
  intros Hreach.
  split; [|split].
  - intros Hgeo.
    assert (_geocode L address s
            = (Raised (RuntimeError
                 "geopy is required for address lookup. Install via `pip install geopy`."),
               s)) as Hg.
    { unfold _geocode.
      destruct (lru_find address (geocode_lru s)) as [v|] eqn:Hfind.
      - pose proof (reachable_memo address s v Hreach Hfind). congruence.
      - rewrite (geocode_body_no_geopy address s Hgeo). reflexivity. }
    split; [exact Hg | apply point_address_failed; exact Hg].
  - intros Hgeo Hmiss Hnone.
    destruct (geocode_body_spec address s Hgeo) as (s' & Hbody & _ & _).
    rewrite Hnone in Hbody. exists s'.
    assert (_geocode L address s
            = (Raised (ValueError (String.append "Address not found: "
                                                 (py_repr L address))), s')) as Hg.
    { unfold _geocode. rewrite Hmiss, Hbody. reflexivity. }
    split; [exact Hg | apply point_address_failed; exact Hg].
  - discriminate.
Qed.

(** C10: [get_soil_temperatures_in_bbox] acquires the dataset first: when
    the normalised path has no raster that opens, or has one without a CRS,
    the call raises -- [RasterioIOError], respectively
    [RuntimeError("Raster has no CRS ...")] -- whatever the box, and reads
    nothing. *)
Theorem C10_acquire_before_fast_reject bbox path masked s :
  reachable L s ->
  disk L (expanduser_resolve L path) = None \/
  (exists r, disk L (expanduser_resolve L path) = Some r /\ crs r = None) ->
  exists e s',
    get_soil_temperatures_in_bbox L bbox path masked s = (Raised e, s') /\
    (e = RasterioIOError (expanduser_resolve L path) \/
     e = RuntimeError "Raster has no CRS – cannot locate coordinates.") /\
    count_reads (log s') = count_reads (log s).
Proof.
  intros Hreach Hbad.
  assert (dataset_cache s !! expanduser_resolve L path = None) as Hmiss.
  { destruct (dataset_cache s !! expanduser_resolve L path) as [ds|] eqn:Hl; [|reflexivity].
    destruct (reachable_Inv s Hreach) as [Hc _].
    destruct (Hc _ _ Hl) as [_ (r' & c & Hd & Hcrs' & _)].
    destruct Hbad as [Hnone|(r & Hd' & Hcrs)]; congruence. }
  destruct bbox as [[[lat_min lon_min] lat_max] lon_max].
  unfold get_soil_temperatures_in_bbox.
  destruct Hbad as [Hnone|(r & Hd & Hcrs)].
  - rewrite (bind_raised _ _ _ _ _ (get_dataset_unreadable path s Hmiss Hnone)).
    do 2 eexists. split; [reflexivity|]. split; [left|]; reflexivity.
  - rewrite (bind_raised _ _ _ _ _ (get_dataset_no_crs path s r Hmiss Hd Hcrs)).
    do 2 eexists. split; [reflexivity|]. split; [right|]; reflexivity.
Qed.

(** * Further properties *)

(** ** How a call of the module moves the state *)

(** a relation that every step of the module respects holds between the
    states before and after any call *)
Lemma run_call_rel (R : State -> State -> Prop) (call : ApiCall float) :
  (forall s, R s s) ->
  (forall s1 s2 s3, R s1 s2 -> R s2 s3 -> R s1 s3) ->
  (forall path s, call_path call = Some path -> R s (snd (_get_dataset L path s))) ->
  (forall address s, R s (snd (_geocode L address s))) ->
  (forall oid s, R s (snd (emit (EvSample oid) s))) ->
  (forall oid w s, R s (snd (emit (EvRead oid w) s))) ->
  forall s, R s (run_call L call s).
Proof.
  intros Hrefl Htrans Hds Hgeo Hsample Hread.
  destruct call as [path|address|ac path|bbox path masked]; simpl.
  - intros s. apply Hds. reflexivity.
  - apply Hgeo.
  - unfold get_soil_temperature.
    apply bind_rel; [exact Htrans | |].
    { intros s. destruct ac as [a|lat lon]; simpl; [apply Hgeo | apply Hrefl]. }
    intros [lat lon].
    apply bind_rel; [exact Htrans | intros s; apply Hds; reflexivity |].
    intros ds. apply bind_rel; [exact Htrans | |].
    + intros s. unfold ds_sample.
      apply bind_rel; [exact Htrans | apply Hsample | intros; apply Hrefl].
    + intros [|[|value arr] rest] s; apply Hrefl.
  - destruct bbox as [[[lat_min lon_min] lat_max] lon_max].
    unfold get_soil_temperatures_in_bbox.
    apply bind_rel; [exact Htrans | intros s; apply Hds; reflexivity |].
    intros ds s. destruct (outside _ _ _ _ _ _); [apply Hrefl|]. revert s.
    apply bind_rel; [exact Htrans | intros; apply Hrefl |]. intros w0.
    apply bind_rel; [exact Htrans | intros; apply Hrefl |]. intros w1.
    apply bind_rel; [exact Htrans | intros; apply Hrefl |]. intros w2.
    apply bind_rel; [exact Htrans | intros; apply Hrefl |]. intros w s.
    destruct (_ || _); [apply Hrefl|]. revert s.
    apply bind_rel; [exact Htrans | |].
    + intros s. unfold ds_read.
      apply bind_rel; [exact Htrans | apply Hread | intros; apply Hrefl].
    + intros data s. destruct (mask_all data); [|destruct masked]; try apply Hrefl.
      revert s. apply bind_rel; [exact Htrans | |]; intros; apply Hrefl.
Qed.

(** so a property kept by every step holds in every state of a process *)
Lemma reachable_ind_steps (P : State -> Prop) :
  P (initial_state float Affine) ->
  (forall path s, P s -> P (snd (_get_dataset L path s))) ->
  (forall address s, P s -> P (snd (_geocode L address s))) ->
  (forall oid s, P s -> P (snd (emit (EvSample oid) s))) ->
  (forall oid w s, P s -> P (snd (emit (EvRead oid w) s))) ->
  forall s, reachable L s -> P s.
Proof.
  intros Hinit Hds Hgeo Hsample Hread s Hreach.
  induction Hreach as [|s call Hreach IH]; [exact Hinit|].
  revert IH. apply (run_call_rel (fun s1 s2 => P s1 -> P s2)); auto.
Qed.

(** [_geocode] on an address that is not memoised, with geopy there *)
Lemma geocode_miss address s :
  lru_find address (geocode_lru s) = None ->
  geopy_installed L = true ->
  _geocode L address s =
  match nominatim_geocode L (count_geocodes (log s)) "soil-temp-lookup" address 5 with
  | Returned (Some v) =>
      (Returned v,
       set_geocode_lru (lru_store lru_maxsize address v (geocode_lru s))
                       (geocoder_called address s))
  | Returned None =>
      (Raised (ValueError (String.append "Address not found: " (py_repr L address))),
       geocoder_called address s)
  | Raised e => (Raised e, geocoder_called address s)
  end.
Proof.
  intros Hfind Hgeo. unfold _geocode. rewrite Hfind.
  unfold geocode_body, geocoder_called, bind, fresh_oid, emit, geolocator_cache_set,
    lift, ret, raise.
  rewrite Hgeo. simpl.
  destruct (geolocator_cache s !! "nominatim"); simpl;
    destruct (nominatim_geocode L (count_geocodes (log s)) "soil-temp-lookup" address 5)
      as [[[lat lon]|]|e];
    reflexivity.
Qed.

Lemma geocode_hit address s v :
  lru_find address (geocode_lru s) = Some v ->
  _geocode L address s
  = (Returned v, set_geocode_lru (lru_touch address v (geocode_lru s)) s).
Proof. intros Hfind. unfold _geocode. rewrite Hfind. reflexivity. Qed.

Lemma geocode_no_geopy address s :
  lru_find address (geocode_lru s) = None ->
  geopy_installed L = false ->
  _geocode L address s
  = (Raised (RuntimeError
       "geopy is required for address lookup. Install via `pip install geopy`."), s).
Proof.
  intros Hfind Hgeo. unfold _geocode. rewrite Hfind.
  rewrite (geocode_body_no_geopy address s Hgeo). reflexivity.
Qed.

(** case analysis on a call of [_geocode], rewriting it to its result *)
Ltac geocode_cases address s :=
  let v := fresh "v" in let Hf := fresh "Hfind" in let Hg := fresh "Hgeopy" in
  let Ha := fresh "Hanswer" in let e := fresh "e" in
  destruct (lru_find address (geocode_lru s)) as [v|] eqn:Hf;
  [ rewrite (geocode_hit address s v Hf)
  | destruct (geopy_installed L) eqn:Hg;
    [ rewrite (geocode_miss address s Hf Hg);
      destruct (nominatim_geocode L (count_geocodes (log s)) "soil-temp-lookup" address 5)
        as [[v|]|e] eqn:Ha
    | rewrite (geocode_no_geopy address s Hf Hg) ] ].

Lemma geocode_cache_same address s :
  dataset_cache (snd (_geocode L address s)) = dataset_cache s.
Proof.
  geocode_cases address s; simpl; try reflexivity;
    unfold geocoder_called; destruct (geolocator_cache s !! "nominatim"); reflexivity.
Qed.

Lemma geocode_opens_of address s k :
  opens_of k (log (snd (_geocode L address s))) = opens_of k (log s).
Proof.
  geocode_cases address s; simpl; try reflexivity;
    unfold geocoder_called; destruct (geolocator_cache s !! "nominatim"); reflexivity.
Qed.

(** ** More on the dataset cache *)

(** X1: a path whose raster cannot be opened is never cached, so in every
    state of a process [_get_dataset] raises [RasterioIOError] with the
    normalised path and changes nothing, and the point query on a
    coordinate pair does the same. *)
Theorem unreadable_raster_raises path lat lon s :
  reachable L s ->
  disk L (expanduser_resolve L path) = None ->
  _get_dataset L path s = (Raised (RasterioIOError (expanduser_resolve L path)), s) /\
  get_soil_temperature L (Coord lat lon) path s
  = (Raised (RasterioIOError (expanduser_resolve L path)), s).
Proof.
  intros Hreach Hdisk.
  assert (dataset_cache s !! expanduser_resolve L path = None) as Hmiss.
  { destruct (dataset_cache s !! expanduser_resolve L path) as [ds|] eqn:Hl; [|reflexivity].
    destruct (reachable_Inv s Hreach) as [Hc _].
    destruct (Hc _ _ Hl) as [_ (r & c & Hd & _)]. congruence. }
  pose proof (get_dataset_unreadable path s Hmiss Hdisk) as Hds.
  split; [exact Hds | apply point_coord_failed; exact Hds].
Qed.

Lemma opened_once_get_dataset path s :
  opened_once L s -> opened_once L (snd (_get_dataset L path s)).
Proof.
  intros Hinv k r' c' Hd' Hc' Hok'. specialize (Hinv k r' c' Hd' Hc' Hok').
  revert Hinv.
  get_dataset_cases path s; simpl; try (intros; assumption).
  - (* reprojected *)
    destruct (decide (expanduser_resolve L path = k)) as [<-|Hne].
    + rewrite lookup_insert_eq, Hcache, String.eqb_refl. intros ->. reflexivity.
    + rewrite lookup_insert_ne by assumption.
      destruct (String.eqb_spec (expanduser_resolve L path) k); [contradiction|].
      intros; assumption.
  - (* the wrapper could not be constructed: the raster opened is not [k]'s *)
    destruct (String.eqb_spec (expanduser_resolve L path) k) as [<-|Hne];
      [|intros; assumption].
    exfalso. assert (r' = r) as -> by congruence. assert (c' = c) as -> by congruence.
    destruct Hok' as [H4326|[view Hview]]; [|congruence].
    apply epsg_ne_true in Hepsg. contradiction.
  - (* native *)
    destruct (decide (expanduser_resolve L path = k)) as [<-|Hne].
    + rewrite lookup_insert_eq, Hcache, String.eqb_refl. intros ->. reflexivity.
    + rewrite lookup_insert_ne by assumption.
      destruct (String.eqb_spec (expanduser_resolve L path) k); [contradiction|].
      intros; assumption.
  - (* no CRS: the raster opened is not [k]'s *)
    destruct (String.eqb_spec (expanduser_resolve L path) k) as [<-|Hne];
      [congruence | intros; assumption].
Qed.

(** X2: in every state of a process, a raster that opens, has a CRS and,
    when that CRS is not EPSG:4326, can be wrapped in a [WarpedVRT] has been
    opened exactly once if its normalised path is in the cache and never
    otherwise: over the life of the process it is opened at most once. *)
Theorem raster_opened_at_most_once s k r c :
  reachable L s ->
  disk L k = Some r ->
  crs r = Some c ->
  (to_epsg c = Some 4326 \/ exists view, gdal_warp L r (EPSG 4326) = Returned view) ->
  opens_of k (log s)
  = match dataset_cache s !! k with Some _ => 1%nat | None => 0%nat end /\
  (opens_of k (log s) <= 1)%nat.
Proof.
  intros Hreach Hd Hc Hok.
  assert (opened_once L s) as Hinv.
  { revert s Hreach. apply reachable_ind_steps.
    - intros k' r' c' _ _ _. reflexivity.
    - intros p s Hs. apply opened_once_get_dataset. exact Hs.
    - intros a s Hs k' r' c' Hd' Hc' Hok'.
      rewrite geocode_opens_of, geocode_cache_same. apply (Hs k' r' c' Hd' Hc' Hok').
    - intros oid s Hs. exact Hs.
    - intros oid w s Hs. exact Hs. }
  specialize (Hinv k r c Hd Hc Hok). split; [exact Hinv|].
  rewrite Hinv. destruct (dataset_cache s !! k); lia.
Qed.

Lemma run_calls_grows calls s : cache_grows s (run_calls L calls s).
Proof.
  revert s. induction calls as [|call calls IH]; intros s; simpl.
  - apply cache_grows_refl.
  - eapply cache_grows_trans; [apply run_call_good | apply IH].
Qed.

(** X3: once [_get_dataset] has returned a handle for a path, then after any
    further calls of the module, [_get_dataset] with any spelling that
    normalises to the same path returns that very handle and leaves the
    state as it is: no open, no re-validation. *)
Theorem handle_kept_for_process_lifetime p1 p2 s ds s1 calls :
  _get_dataset L p1 s = (Returned ds, s1) ->
  expanduser_resolve L p2 = expanduser_resolve L p1 ->
  _get_dataset L p2 (run_calls L calls s1) = (Returned ds, run_calls L calls s1).
Proof.
  intros Hfirst Hsame. apply get_dataset_hit. rewrite Hsame.
  eapply cache_grows_lookup; [apply run_calls_grows|].
  eapply get_dataset_returns_cached. exact Hfirst.
Qed.

Lemma geocode_next_oid address s :
  (next_oid s <= next_oid (snd (_geocode L address s)))%nat.
Proof.
  geocode_cases address s; simpl; try lia;
    unfold geocoder_called; destruct (geolocator_cache s !! "nominatim"); simpl; lia.
Qed.

Lemma oids_ok_insert (s : State) key ds n :
  oids_ok s ->
  dataset_cache s !! key = None ->
  (next_oid s <= oid_of ds < n)%nat ->
  (forall k d, <[key := ds]> (dataset_cache s) !! k = Some d -> (oid_of d < n)%nat) /\
  (forall k1 k2 d1 d2,
      <[key := ds]> (dataset_cache s) !! k1 = Some d1 ->
      <[key := ds]> (dataset_cache s) !! k2 = Some d2 ->
      oid_of d1 = oid_of d2 -> k1 = k2).
Proof.
  intros [Hlt Hinj] Hmiss Hnew. split.
  - intros k d. destruct (decide (key = k)) as [<-|Hne].
    + rewrite lookup_insert_eq. intros [= <-]. lia.
    + rewrite lookup_insert_ne by assumption. intros Hl. specialize (Hlt _ _ Hl). lia.
  - intros k1 k2 d1 d2.
    destruct (decide (key = k1)) as [<-|Hne1]; destruct (decide (key = k2)) as [<-|Hne2];
      rewrite ?lookup_insert_eq, ?lookup_insert_ne by assumption.
    + reflexivity.
    + intros [= <-] Hl Heq. specialize (Hlt _ _ Hl). lia.
    + intros Hl [= <-] Heq. specialize (Hlt _ _ Hl). lia.
    + apply Hinj.
Qed.

(** X4: in every state of a process the handles in the dataset cache are
    objects created earlier, and two different normalised paths never share
    a handle object. *)
Theorem cached_handles_are_distinct_objects s :
  reachable L s ->
  (forall k ds, dataset_cache s !! k = Some ds -> (oid_of ds < next_oid s)%nat) /\
  (forall k1 k2 ds1 ds2,
      dataset_cache s !! k1 = Some ds1 -> dataset_cache s !! k2 = Some ds2 ->
      oid_of ds1 = oid_of ds2 -> k1 = k2).
Proof.
  change (reachable L s -> oids_ok s). revert s. apply reachable_ind_steps.
  - split; intros *; simpl; rewrite lookup_empty; discriminate.
  - intros path s Hs.
    get_dataset_cases path s; simpl; try exact Hs.
    + apply (oids_ok_insert s _ _ _ Hs Hcache). simpl. lia.
    + destruct Hs as [Hlt Hinj]. split; [|exact Hinj].
      intros k d Hl. specialize (Hlt _ _ Hl). simpl. lia.
    + apply (oids_ok_insert s _ _ _ Hs Hcache). simpl. lia.
    + destruct Hs as [Hlt Hinj]. split; [|exact Hinj].
      intros k d Hl. specialize (Hlt _ _ Hl). simpl. lia.
  - intros address s [Hlt Hinj]. unfold oids_ok. rewrite geocode_cache_same.
    split; [|exact Hinj].
    intros k d Hl. specialize (Hlt _ _ Hl).
    pose proof (geocode_next_oid address s). lia.
  - intros oid s Hs. exact Hs.
  - intros oid w s Hs. exact Hs.
Qed.

(** X5: a call of the module writes the dataset cache at most under the
    normalised form of the path it is given: every other key keeps its
    entry, or stays absent; [_geocode] leaves the whole cache alone. *)
Theorem cache_written_only_under_own_path call s k :
  (forall path, call_path call = Some path -> k <> expanduser_resolve L path) ->
  dataset_cache (run_call L call s) !! k = dataset_cache s !! k.
Proof.
  intros Hother. revert s.
  apply (run_call_rel (fun s1 s2 => dataset_cache s2 !! k = dataset_cache s1 !! k)).
  - reflexivity.
  - intros s1 s2 s3 H12 H23. congruence.
  - intros path s Hpath. specialize (Hother path Hpath).
    get_dataset_cases path s; simpl; try reflexivity;
      apply lookup_insert_ne; congruence.
  - intros address s. rewrite geocode_cache_same. reflexivity.
  - reflexivity.
  - reflexivity.
Qed.

(** ** More on [_geocode] *)

Lemma lru_find_touch {V} k (v : V) c : lru_find k (lru_touch k v c) = Some v.
Proof. unfold lru_touch. simpl. rewrite String.eqb_refl. reflexivity. Qed.

Lemma lru_find_store {V} k (v : V) c : lru_find k (lru_store lru_maxsize k v c) = Some v.
Proof. unfold lru_store, lru_maxsize. simpl. rewrite String.eqb_refl. reflexivity. Qed.

(** X6: after [_geocode] has returned a position for an address, the next
    [_geocode] of that address returns the same position from the memo
    table: the geocoder is not called and no geolocator is constructed (the
    log is unchanged). *)
Theorem geocode_memoised address s v s1 :
  _geocode L address s = (Returned v, s1) ->
  exists s2,
    _geocode L address s1 = (Returned v, s2) /\
    log s2 = log s1 /\
    dataset_cache s2 = dataset_cache s1.
Proof.
  intros Hfirst.
  assert (lru_find address (geocode_lru s1) = Some v) as Hfind.
  { revert Hfirst. geocode_cases address s; intros Heq; inversion Heq; subst; simpl.
    - apply lru_find_touch.
    - apply lru_find_store. }
  rewrite (geocode_hit address s1 v Hfind).
  eexists. split; [reflexivity|]. split; reflexivity.
Qed.

Lemma geocoder_called_again address (s : State) :
  geocoder_called address (geocoder_called address s)
  = {| dataset_cache := dataset_cache (geocoder_called address s);
       geolocator_cache := geolocator_cache (geocoder_called address s);
       geocode_lru := geocode_lru (geocoder_called address s);
       next_oid := next_oid (geocoder_called address s);
       log := EvGeocode address :: log (geocoder_called address s) |}.
Proof.
  unfold geocoder_called at 1.
  assert (is_Some (geolocator_cache (geocoder_called address s) !! "nominatim")) as [o Ho].
  { unfold geocoder_called.
    destruct (geolocator_cache s !! "nominatim") as [o|] eqn:E; simpl.
    - rewrite E. eexists; reflexivity.
    - rewrite lookup_insert_eq. eexists; reflexivity. }
  rewrite Ho. reflexivity.
Qed.

Lemma geocoder_called_lru address (s : State) :
  geocode_lru (geocoder_called address s) = geocode_lru s.
Proof. unfold geocoder_called. destruct (geolocator_cache s !! "nominatim"); reflexivity. Qed.

(** X7: exceptions of [_geocode] are not memoised: after a call has raised,
    the address is still absent from the memo table; with geopy installed
    the next call for it calls the geocoder again (one more [geocode] in
    the log, and no second geolocator) and returns or raises according to
    the answer to that new call; without geopy it raises the same
    [RuntimeError] again. *)
Theorem geocode_failure_not_memoised address s e s1 :
  _geocode L address s = (Raised e, s1) ->
  lru_find address (geocode_lru s1) = None /\
  (geopy_installed L = true ->
   fst (_geocode L address s1)
   = match nominatim_geocode L (count_geocodes (log s1)) "soil-temp-lookup" address 5 with
     | Returned (Some v) => Returned v
     | Returned None =>
         Raised (ValueError (String.append "Address not found: " (py_repr L address)))
     | Raised e' => Raised e'
     end /\
   log (snd (_geocode L address s1)) = EvGeocode address :: log s1) /\
  (geopy_installed L = false -> _geocode L address s1 = (Raised e, s1)).
Proof.
  assert (forall st : State,
             lru_find address (geocode_lru st) = None ->
             geopy_installed L = true ->
             lru_find address (geocode_lru (geocoder_called address st)) = None /\
             (fst (_geocode L address (geocoder_called address st))
              = match nominatim_geocode L (count_geocodes (log (geocoder_called address st)))
                                        "soil-temp-lookup" address 5 with
                | Returned (Some v) => Returned v
                | Returned None =>
                    Raised (ValueError (String.append "Address not found: "
                                                      (py_repr L address)))
                | Raised e' => Raised e'
                end /\
              log (snd (_geocode L address (geocoder_called address st)))
              = EvGeocode address :: log (geocoder_called address st))) as Hnext.
  { intros st Hmiss Hgeo.
    assert (lru_find address (geocode_lru (geocoder_called address st)) = None) as Hmiss'
      by (rewrite geocoder_called_lru; exact Hmiss).
    split; [exact Hmiss'|].
    rewrite (geocode_miss address (geocoder_called address st) Hmiss' Hgeo).
    rewrite geocoder_called_again.
    destruct (nominatim_geocode L _ "soil-temp-lookup" address 5) as [[v|]|e'];
      split; reflexivity. }
  geocode_cases address s; intros Heq; inversion Heq; subst; clear Heq.
  - (* address not found *)
    destruct (Hnext s Hfind eq_refl) as [Hmiss' Hrun].
    split; [exact Hmiss'|]. split; [intros _; exact Hrun | congruence].
  - (* the geocoder raised *)
    destruct (Hnext s Hfind eq_refl) as [Hmiss' Hrun].
    split; [exact Hmiss'|]. split; [intros _; exact Hrun | congruence].
  - (* no geopy *)
    split; [exact Hfind|]. split; [congruence|].
    intros _. apply (geocode_no_geopy address s1 Hfind Hgeopy).
Qed.

(** X8: in every state of a process the [Nominatim] geolocator has been
    constructed once if [_GEOLOCATOR_CACHE] holds it and never otherwise:
    at most one is ever constructed. *)
Theorem geolocator_constructed_at_most_once s :
  reachable L s ->
  count_geolocators (log s)
  = match geolocator_cache s !! "nominatim" with Some _ => 1%nat | None => 0%nat end /\
  (count_geolocators (log s) <= 1)%nat.
Proof.
  intros Hreach.
  assert (geolocator_once s) as Hinv.
  { revert s Hreach. apply reachable_ind_steps; unfold geolocator_once.
    - reflexivity.
    - intros path s Hs. get_dataset_cases path s; simpl; exact Hs.
    - intros address s Hs.
      geocode_cases address s; simpl; try exact Hs;
        unfold geocoder_called;
        destruct (geolocator_cache s !! "nominatim") as [o|] eqn:E; simpl;
        rewrite ?E, ?lookup_insert_eq; simpl; rewrite ?Hs; reflexivity.
    - intros oid s Hs. exact Hs.
    - intros oid w s Hs. exact Hs. }
  unfold geolocator_once in Hinv. split; [exact Hinv|].
  rewrite Hinv. destruct (geolocator_cache s !! "nominatim"); lia.
Qed.

Lemma lru_remove_length {V} k (v : V) c :
  lru_find k c = Some v -> S (length (lru_remove k c)) = length c.
Proof.
  induction c as [|[k' v'] c IH]; simpl; [discriminate|].
  destruct (String.eqb k k'); [reflexivity|].
  intros H. simpl. rewrite (IH H). reflexivity.
Qed.

(** X9: in every state of a process the memo table of [_geocode] holds at
    most 2048 addresses. *)
Theorem geocode_memo_bounded s :
  reachable L s -> (length (geocode_lru s) <= 2048)%nat.
Proof.
  revert s. apply reachable_ind_steps.
  - simpl. lia.
  - intros path s Hs. get_dataset_cases path s; simpl; exact Hs.
  - intros address s Hs.
    geocode_cases address s; simpl; rewrite ?geocoder_called_lru; try exact Hs.
    + unfold lru_touch. simpl. rewrite (lru_remove_length _ _ _ Hfind). exact Hs.
    + unfold lru_store, lru_maxsize. rewrite length_firstn. lia.
  - intros oid s Hs. exact Hs.
  - intros oid w s Hs. exact Hs.
Qed.

(** ** More on the point query *)

Lemma sampled_answer_raster (ds ds' : Dataset) lat lon :
  raster_of ds = raster_of ds' ->
  sampled_answer L ds lat lon = sampled_answer L ds' lat lon.
Proof.
  intros Heq. unfold sampled_answer, nodata_policy. rewrite Heq. reflexivity.
Qed.

Lemma point_coord_fst lat lon path s :
  fst (get_soil_temperature L (Coord lat lon) path s)
  = match fst (_get_dataset L path s) with
    | Returned ds => sampled_answer L ds lat lon
    | Raised e => Raised e
    end.
Proof.
  destruct (_get_dataset L path s) as [[ds|e] s1] eqn:Hds.
  - rewrite (point_coord_acquired lat lon path s ds s1 Hds). reflexivity.
  - rewrite (point_coord_failed lat lon path s e s1 Hds). reflexivity.
Qed.

(** what [_get_dataset] returns or raises depends on the state only through
    the cache entry of the normalised path, up to the identity of the
    objects it creates *)
Lemma get_dataset_fst_cache path (s s' : State) :
  dataset_cache s !! expanduser_resolve L path
  = dataset_cache s' !! expanduser_resolve L path ->
  match fst (_get_dataset L path s), fst (_get_dataset L path s') with
  | Returned d, Returned d' => raster_of d = raster_of d'
  | Raised e, Raised e' => e = e'
  | _, _ => False
  end.
Proof.
  intros Heq.
  destruct (dataset_cache s !! expanduser_resolve L path) as [ds|] eqn:Hc.
  - rewrite (get_dataset_hit path s ds Hc), (get_dataset_hit path s' ds (eq_sym Heq)).
    reflexivity.
  - symmetry in Heq.
    destruct (disk L (expanduser_resolve L path)) as [r|] eqn:Hd.
    + destruct (crs r) as [c|] eqn:Hcrs.
      * destruct (epsg_ne (to_epsg c) 4326) eqn:He.
        -- destruct (gdal_warp L r (EPSG 4326)) as [view|ew] eqn:Hw.
           ++ rewrite (get_dataset_warped path s r c view Hc Hd Hcrs He Hw),
                (get_dataset_warped path s' r c view Heq Hd Hcrs He Hw). reflexivity.
           ++ rewrite (get_dataset_warp_failed path s r c ew Hc Hd Hcrs He Hw),
                (get_dataset_warp_failed path s' r c ew Heq Hd Hcrs He Hw). reflexivity.
        -- rewrite (get_dataset_native path s r c Hc Hd Hcrs He),
             (get_dataset_native path s' r c Heq Hd Hcrs He). reflexivity.
      * rewrite (get_dataset_no_crs path s r Hc Hd Hcrs),
          (get_dataset_no_crs path s' r Heq Hd Hcrs). reflexivity.
    + rewrite (get_dataset_unreadable path s Hc Hd),
        (get_dataset_unreadable path s' Heq Hd). reflexivity.
Qed.

Lemma point_coord_fst_cache lat lon path (s s' : State) :
  dataset_cache s !! expanduser_resolve L path
  = dataset_cache s' !! expanduser_resolve L path ->
  fst (get_soil_temperature L (Coord lat lon) path s)
  = fst (get_soil_temperature L (Coord lat lon) path s').
Proof.
  intros Heq. rewrite !point_coord_fst.
  pose proof (get_dataset_fst_cache path s s' Heq) as H.
  destruct (fst (_get_dataset L path s)) as [d|e];
    destruct (fst (_get_dataset L path s')) as [d'|e']; try contradiction.
  - apply sampled_answer_raster. exact H.
  - congruence.
Qed.

Lemma address_as_coord address lat lon path s s1 :
  _geocode L address s = (Returned (lat, lon), s1) ->
  fst (get_soil_temperature L (Address address) path s)
  = fst (get_soil_temperature L (Coord lat lon) path s).
Proof.
  intros Hgeo.
  assert (get_soil_temperature L (Address address) path s
          = get_soil_temperature L (Coord lat lon) path s1) as ->.
  { unfold get_soil_temperature at 1. unfold resolve_coord.
    rewrite (bind_returned _ _ _ _ _ Hgeo).
    unfold get_soil_temperature, resolve_coord. unfold bind at 5. reflexivity. }
  apply point_coord_fst_cache.
  pose proof (geocode_cache_same address s) as Hc. rewrite Hgeo in Hc. simpl in Hc.
  rewrite Hc. reflexivity.
Qed.

(** X10: when [_geocode] returns a position for an address, the point query
    on the address gives what the point query on that (lat, lon) pair
    gives. *)
Theorem address_query_agrees_with_coordinates address lat lon path s s1 :
  _geocode L address s = (Returned (lat, lon), s1) ->
  fst (get_soil_temperature L (Address address) path s)
  = fst (get_soil_temperature L (Coord lat lon) path s).
Proof. apply address_as_coord. Qed.


(** X11: with the dataset acquired, the point query on (lat, lon) consumes
    the sampler once, at the point (lon, lat): a sampler that yields
    nothing gives [None], one whose first array is empty raises
    [IndexError]; either way the cache is as the acquisition left it. *)
Theorem point_query_sampler_edges lat lon path s ds s1 :
  _get_dataset L path s = (Returned ds, s1) ->
  (sample (raster_of ds) [(lon, lat)] = Returned [] ->
   fst (get_soil_temperature L (Coord lat lon) path s) = Returned None) /\
  (forall rest,
      sample (raster_of ds) [(lon, lat)] = Returned ([] :: rest) ->
      fst (get_soil_temperature L (Coord lat lon) path s) = Raised IndexError) /\
  log (snd (get_soil_temperature L (Coord lat lon) path s))
  = EvSample (oid_of ds) :: log s1 /\
  dataset_cache (snd (get_soil_temperature L (Coord lat lon) path s))
  = dataset_cache s1.
Proof.
  intros Hds. rewrite (point_coord_acquired lat lon path s ds s1 Hds).
  unfold sampled_answer. simpl.
  split; [intros ->; reflexivity|].
  split; [intros rest ->; reflexivity|].
  split; reflexivity.
Qed.

(** X12: the first point query on a path whose raster has a CRS other than
    EPSG:4326 goes through the [WarpedVRT]: when the constructor raises,
    the query raises the same; when it gives a view, the query answers from
    that view -- its sampler at (lon, lat), be it an exception, nothing, or
    a value, and its nodata value.  When the CRS is EPSG:4326 the query
    answers from the raster itself. *)
Theorem point_query_goes_through_reprojection lat lon path s r c :
  dataset_cache s !! expanduser_resolve L path = None ->
  disk L (expanduser_resolve L path) = Some r ->
  crs r = Some c ->
  (to_epsg c <> Some 4326 ->
   (forall e,
       gdal_warp L r (EPSG 4326) = Raised e ->
       fst (get_soil_temperature L (Coord lat lon) path s) = Raised e) /\
   (forall view,
       gdal_warp L r (EPSG 4326) = Returned view ->
       fst (get_soil_temperature L (Coord lat lon) path s)
       = match sample view [(lon, lat)] with
         | Raised e => Raised e
         | Returned [] => Returned None
         | Returned ([] :: _) => Raised IndexError
         | Returned ((value :: _) :: _) =>
             Returned
               (if match nodata view with
                   | Some nd => np_isclose L value nd
                   | None => false
                   end
                then None
                else if np_isnan L value then None else Some (py_float L value))
         end)) /\
  (to_epsg c = Some 4326 ->
   fst (get_soil_temperature L (Coord lat lon) path s)
   = match sample r [(lon, lat)] with
     | Raised e => Raised e
     | Returned [] => Returned None
     | Returned ([] :: _) => Raised IndexError
     | Returned ((value :: _) :: _) =>
         Returned
           (if match nodata r with
               | Some nd => np_isclose L value nd
               | None => false
               end
            then None
            else if np_isnan L value then None else Some (py_float L value))
     end).
Proof.
  intros Hmiss Hd Hcrs. rewrite point_coord_fst. split; intros He.
  - apply epsg_ne_true in He. split.
    + intros e Hw. rewrite (get_dataset_warp_failed path s r c e Hmiss Hd Hcrs He Hw).
      reflexivity.
    + intros view Hw. rewrite (get_dataset_warped path s r c view Hmiss Hd Hcrs He Hw).
      reflexivity.
  - apply epsg_ne_false in He.
    rewrite (get_dataset_native path s r c Hmiss Hd Hcrs He). reflexivity.
Qed.

(** X25: a raster whose [WarpedVRT] cannot be built is not cached: on a
    miss [_get_dataset] opens it, raises what the constructor raised and
    leaves the cache as it was, so the next call opens the raster a second
    time and raises the same. *)
Theorem failed_reprojection_not_cached path s r c e :
  dataset_cache s !! expanduser_resolve L path = None ->
  disk L (expanduser_resolve L path) = Some r ->
  crs r = Some c ->
  to_epsg c <> Some 4326 ->
  gdal_warp L r (EPSG 4326) = Raised e ->
  exists s1 s2,
    _get_dataset L path s = (Raised e, s1) /\
    dataset_cache s1 = dataset_cache s /\
    count_opens (log s1) = S (count_opens (log s)) /\
    _get_dataset L path s1 = (Raised e, s2) /\
    count_opens (log s2) = S (S (count_opens (log s))).
Proof.
  intros Hmiss Hd Hcrs He Hw. apply epsg_ne_true in He.
  do 2 eexists. split.
  - apply (get_dataset_warp_failed path s r c e Hmiss Hd Hcrs He Hw).
  - split; [reflexivity|]. split; [reflexivity|]. split.
    + apply (get_dataset_warp_failed path _ r c e); assumption.
    + reflexivity.
Qed.

(** X26: with the dataset acquired, an exception the sampler raises when
    its first array is asked for leaves the point query as it is; the
    handle stays in the cache. *)
Theorem sampler_exception_propagates lat lon path s ds s1 e :
  _get_dataset L path s = (Returned ds, s1) ->
  sample (raster_of ds) [(lon, lat)] = Raised e ->
  fst (get_soil_temperature L (Coord lat lon) path s) = Raised e /\
  dataset_cache (snd (get_soil_temperature L (Coord lat lon) path s))
    !! expanduser_resolve L path = Some ds.
Proof.
  intros Hds Hsample. rewrite (point_coord_acquired lat lon path s ds s1 Hds).
  unfold sampled_answer. rewrite Hsample. simpl.
  split; [reflexivity|]. exact (get_dataset_returns_cached _ _ _ _ Hds).
Qed.

Lemma geocode_counts address s :
  count_reads (log (snd (_geocode L address s))) = count_reads (log s) /\
  count_samples (log (snd (_geocode L address s))) = count_samples (log s) /\
  count_opens (log (snd (_geocode L address s))) = count_opens (log s).
Proof.
  geocode_cases address s; simpl; repeat split; try reflexivity;
    unfold geocoder_called; destruct (geolocator_cache s !! "nominatim"); reflexivity.
Qed.

Lemma get_dataset_samples path s :
  count_samples (log (snd (_get_dataset L path s))) = count_samples (log s).
Proof. get_dataset_cases path s; reflexivity. Qed.

(** X17: an address that fails in [_geocode] fails the point query with the
    same exception before the raster is touched: nothing is opened and the
    dataset cache is unchanged, whatever the path. *)
Theorem geocoding_failure_precedes_raster address path s e s1 :
  _geocode L address s = (Raised e, s1) ->
  get_soil_temperature L (Address address) path s = (Raised e, s1) /\
  count_opens (log s1) = count_opens (log s) /\
  count_samples (log s1) = count_samples (log s) /\
  dataset_cache s1 = dataset_cache s.
Proof.
  intros Hgeo. split; [apply point_address_failed; exact Hgeo|].
  pose proof (geocode_counts address s) as (_ & Hs & Ho).
  pose proof (geocode_cache_same address s) as Hc.
  rewrite Hgeo in Hs, Ho, Hc. simpl in *. repeat split; assumption.
Qed.

Lemma point_counts ac path s :
  count_reads (log (snd (get_soil_temperature L ac path s))) = count_reads (log s) /\
  (count_samples (log (snd (get_soil_temperature L ac path s)))
   <= S (count_samples (log s)))%nat /\
  (count_opens (log (snd (get_soil_temperature L ac path s)))
   <= S (count_opens (log s)))%nat.
Proof.
  remember (snd (get_soil_temperature L ac path s)) as st eqn:Hst.
  unfold get_soil_temperature in Hst. unfold bind at 1 in Hst.
  assert (count_reads (log (snd (resolve_coord L ac s))) = count_reads (log s) /\
          count_samples (log (snd (resolve_coord L ac s))) = count_samples (log s) /\
          count_opens (log (snd (resolve_coord L ac s))) = count_opens (log s))
    as (Hr1 & Hs1 & Ho1).
  { destruct ac as [a|lat lon]; simpl; [apply geocode_counts | repeat split]. }
  destruct (resolve_coord L ac s) as [[[lat lon]|e] s1]; simpl in *;
    [|subst st; (split; [|split]); lia].
  unfold bind at 1 in Hst.
  pose proof (get_dataset_reads path s1) as Hr2.
  pose proof (get_dataset_samples path s1) as Hs2.
  pose proof (get_dataset_opens path s1) as Ho2.
  destruct (_get_dataset L path s1) as [[ds|e] s2]; simpl in *;
    [|subst st; (split; [|split]); lia].
  unfold ds_sample, bind, emit, lift, ret in Hst.
  destruct (sample (raster_of ds) [(lon, lat)]) as [[|[|value bands] points]|e];
    subst st; simpl; (split; [|split]); lia.
Qed.

Lemma bbox_counts bbox path masked s :
  count_samples (log (snd (get_soil_temperatures_in_bbox L bbox path masked s)))
  = count_samples (log s) /\
  (count_reads (log (snd (get_soil_temperatures_in_bbox L bbox path masked s)))
   <= S (count_reads (log s)))%nat /\
  (count_opens (log (snd (get_soil_temperatures_in_bbox L bbox path masked s)))
   <= S (count_opens (log s)))%nat.
Proof.
  destruct bbox as [[[lat_min lon_min] lat_max] lon_max].
  remember (snd (get_soil_temperatures_in_bbox L (lat_min, lon_min, lat_max, lon_max)
                   path masked s)) as st eqn:Hst.
  unfold get_soil_temperatures_in_bbox in Hst. unfold bind at 1 in Hst.
  pose proof (get_dataset_reads path s) as Hr2.
  pose proof (get_dataset_samples path s) as Hs2.
  pose proof (get_dataset_opens path s) as Ho2.
  destruct (_get_dataset L path s) as [[ds|e] s2]; simpl in *;
    [|subst st; (split; [|split]); lia].
  destruct (outside _ _ _ _ _ _); simpl in Hst;
    [subst st; (split; [|split]); lia|].
  unfold bind, lift, ds_read, emit, ret in Hst.
  destruct (from_bounds L _ _ _ _ _) as [w0|e]; simpl in Hst;
    [|subst st; (split; [|split]); lia].
  destruct (round_offsets L w0) as [w1|e]; simpl in Hst;
    [|subst st; (split; [|split]); lia].
  destruct (round_lengths L w1) as [w2|e]; simpl in Hst;
    [|subst st; (split; [|split]); lia].
  destruct (intersection w2 _) as [w|e]; simpl in Hst;
    [|subst st; (split; [|split]); lia].
  destruct (_ || _); simpl in Hst; [subst st; (split; [|split]); lia|].
  destruct (read (raster_of ds) 1 w) as [data|e]; simpl in Hst;
    [|subst st; simpl; (split; [|split]); lia].
  destruct (mask_all data); [|destruct masked];
    try (destruct (filled L data (np_nan L)) as [a|e]; simpl in Hst);
    subst st; simpl; (split; [|split]); lia.
Qed.

(** X13: a point query never reads a window and consumes the sampler at
    most once; a bounding-box query never samples and reads at most one
    window; each opens at most one raster. *)
Theorem queries_touch_the_raster_at_most_once ac bbox path masked s :
  (count_reads (log (snd (get_soil_temperature L ac path s))) = count_reads (log s) /\
   (count_samples (log (snd (get_soil_temperature L ac path s)))
    <= S (count_samples (log s)))%nat /\
   (count_opens (log (snd (get_soil_temperature L ac path s)))
    <= S (count_opens (log s)))%nat) /\
  (count_samples (log (snd (get_soil_temperatures_in_bbox L bbox path masked s)))
   = count_samples (log s) /\
   (count_reads (log (snd (get_soil_temperatures_in_bbox L bbox path masked s)))
    <= S (count_reads (log s)))%nat /\
   (count_opens (log (snd (get_soil_temperatures_in_bbox L bbox path masked s)))
    <= S (count_opens (log s)))%nat).
Proof. split; [apply point_counts | apply bbox_counts]. Qed.

(** ** More on the bounding-box query *)

(** X14: a box that passes the fast-reject test but whose rounded window
    does not intersect [Window(0, 0, width, height)] -- a box that only
    touches an edge of the raster, for one -- makes the query raise the
    [WindowError] of [Window.intersection] instead of returning [None];
    nothing is read. *)
Theorem disjoint_window_raises south west north east path masked s ds s1 w0 w1 w2 :
  _get_dataset L path s = (Returned ds, s1) ->
  outside L (bounds (raster_of ds)) south west north east = false ->
  from_bounds L west south east north (transform (raster_of ds)) = Returned w0 ->
  round_offsets L w0 = Returned w1 ->
  round_lengths L w1 = Returned w2 ->
  intersect w2 (mkWindow 0 0 (inject_Z (raster_width (raster_of ds)))
                             (inject_Z (raster_height (raster_of ds)))) = false ->
  get_soil_temperatures_in_bbox L (south, west, north, east) path masked s
  = (Raised (WindowError "windows do not intersect"), s1) /\
  count_reads (log s1) = count_reads (log s).
Proof.
  intros Hds Hout Hfb Hro Hrl Hdisjoint. split.
  - rewrite (bbox_upto_window _ _ _ _ _ masked _ _ _ _ _ _ Hds Hout Hfb Hro Hrl).
    unfold intersection. rewrite Hdisjoint. reflexivity.
  - pose proof (get_dataset_reads path s) as Hr. rewrite Hds in Hr. exact Hr.
Qed.

(** the bounding-box query leaves the cache as the acquisition left it,
    whether it returns or raises afterwards *)
Lemma bbox_cache_after bbox path masked s ds s1 :
  _get_dataset L path s = (Returned ds, s1) ->
  dataset_cache (snd (get_soil_temperatures_in_bbox L bbox path masked s))
  = dataset_cache s1.
Proof.
  intros Hds. destruct bbox as [[[lat_min lon_min] lat_max] lon_max].
  unfold get_soil_temperatures_in_bbox. rewrite (bind_returned _ _ _ _ _ Hds).
  destruct (outside _ _ _ _ _ _); [reflexivity|].
  unfold bind, lift, ds_read, emit, ret.
  destruct (from_bounds L _ _ _ _ _) as [w0|e]; simpl; [|reflexivity].
  destruct (round_offsets L w0) as [w1|e]; simpl; [|reflexivity].
  destruct (round_lengths L w1) as [w2|e]; simpl; [|reflexivity].
  destruct (intersection w2 _) as [w|e]; simpl; [|reflexivity].
  destruct (_ || _); simpl; [reflexivity|].
  destruct (read (raster_of ds) 1 w) as [data|e]; simpl; [|reflexivity].
  destruct (mask_all data); [|destruct masked]; fill_cases.
Qed.

(** what the bounding-box query answers depends on the handle only through
    the raster it exposes *)
Lemma bbox_fst_same_raster bbox path masked (s s' : State) ds ds' s1 s1' :
  _get_dataset L path s = (Returned ds, s1) ->
  _get_dataset L path s' = (Returned ds', s1') ->
  raster_of ds = raster_of ds' ->
  fst (get_soil_temperatures_in_bbox L bbox path masked s)
  = fst (get_soil_temperatures_in_bbox L bbox path masked s').
Proof.
  intros Hds Hds' Heq. destruct bbox as [[[lat_min lon_min] lat_max] lon_max].
  unfold get_soil_temperatures_in_bbox.
  rewrite (bind_returned _ _ _ _ _ Hds), (bind_returned _ _ _ _ _ Hds'). rewrite Heq.
  destruct (outside _ _ _ _ _ _); [reflexivity|].
  unfold bind, lift, ds_read, emit, ret. rewrite Heq.
  destruct (from_bounds L _ _ _ _ _) as [w0|e]; simpl; [|reflexivity].
  destruct (round_offsets L w0) as [w1|e]; simpl; [|reflexivity].
  destruct (round_lengths L w1) as [w2|e]; simpl; [|reflexivity].
  destruct (intersection w2 _) as [w|e]; simpl; [|reflexivity].
  destruct (_ || _); simpl; [reflexivity|].
  destruct (read (raster_of ds') 1 w) as [data|e]; simpl; [|reflexivity].
  destruct (mask_all data); [|destruct masked]; fill_cases.
Qed.

Lemma bbox_failed bbox path masked s e s1 :
  _get_dataset L path s = (Raised e, s1) ->
  get_soil_temperatures_in_bbox L bbox path masked s = (Raised e, s1).
Proof.
  intros Hds. destruct bbox as [[[lat_min lon_min] lat_max] lon_max].
  unfold get_soil_temperatures_in_bbox. rewrite (bind_raised _ _ _ _ _ Hds). reflexivity.
Qed.

(** X15: the bounding-box query called twice with the same box, path and
    [masked] flag gives the same result both times (the same array, [None],
    or the same exception), and when the first call acquires the dataset
    the two calls together open the raster at most once. *)
Theorem bbox_query_twice bbox path masked s :
  fst (get_soil_temperatures_in_bbox L bbox path masked
         (snd (get_soil_temperatures_in_bbox L bbox path masked s)))
  = fst (get_soil_temperatures_in_bbox L bbox path masked s) /\
  (forall ds s1,
      _get_dataset L path s = (Returned ds, s1) ->
      (count_opens
         (log (snd (get_soil_temperatures_in_bbox L bbox path masked
                      (snd (get_soil_temperatures_in_bbox L bbox path masked s)))))
       <= S (count_opens (log s)))%nat).
Proof.
  destruct (_get_dataset L path s) as [[ds|e] s1] eqn:Hfirst.
  - pose proof (bbox_cache_after bbox path masked s ds s1 Hfirst) as Hcache.
    pose proof (get_dataset_returns_cached _ _ _ _ Hfirst) as Hcached.
    rewrite <- Hcache in Hcached.
    pose proof (get_dataset_hit path _ ds Hcached) as Hsecond.
    split.
    + eapply bbox_fst_same_raster; [exact Hsecond | exact Hfirst | reflexivity].
    + intros ds' s1' _.
      pose proof (bbox_counts bbox path masked s) as (_ & _ & Ho1).
      set (st := snd (get_soil_temperatures_in_bbox L bbox path masked s)) in *.
      assert (count_opens (log (snd (get_soil_temperatures_in_bbox L bbox path masked st)))
              = count_opens (log st)) as ->; [|exact Ho1].
      clear Ho1. destruct bbox as [[[lat_min lon_min] lat_max] lon_max].
      unfold get_soil_temperatures_in_bbox at 1.
      rewrite (bind_returned _ _ _ _ _ Hsecond).
      destruct (outside _ _ _ _ _ _); [reflexivity|].
      unfold bind, lift, ds_read, emit, ret.
      destruct (from_bounds L _ _ _ _ _) as [w0|e]; simpl; [|reflexivity].
      destruct (round_offsets L w0) as [w1|e]; simpl; [|reflexivity].
      destruct (round_lengths L w1) as [w2|e]; simpl; [|reflexivity].
      destruct (intersection w2 _) as [w|e]; simpl; [|reflexivity].
      destruct (_ || _); simpl; [reflexivity|].
      destruct (read (raster_of ds) 1 w) as [data|e]; simpl; [|reflexivity].
      destruct (mask_all data); [|destruct masked]; fill_cases.
  - rewrite (bbox_failed bbox path masked s e s1 Hfirst). cbn [fst snd].
    destruct (get_dataset_raises_again path s e s1 Hfirst) as [s2 Hsecond].
    rewrite (bbox_failed bbox path masked s1 e s2 Hsecond). cbn [fst snd].
    split; [reflexivity|].
    intros ds' s1' Hacq. discriminate.
Qed.

(** X16: a handle acquired by either query serves the other: after a
    bounding-box query has acquired the dataset, whatever it then returned
    or raised, a point query on an equivalent spelling of the path opens
    nothing; and the same the other way round. *)
Theorem queries_share_the_handle bbox masked lat lon p1 p2 s ds s1 :
  _get_dataset L p1 s = (Returned ds, s1) ->
  expanduser_resolve L p2 = expanduser_resolve L p1 ->
  count_opens
    (log (snd (get_soil_temperature L (Coord lat lon) p2
                 (snd (get_soil_temperatures_in_bbox L bbox p1 masked s)))))
  = count_opens (log (snd (get_soil_temperatures_in_bbox L bbox p1 masked s))) /\
  count_opens
    (log (snd (get_soil_temperatures_in_bbox L bbox p2 masked
                 (snd (get_soil_temperature L (Coord lat lon) p1 s)))))
  = count_opens (log (snd (get_soil_temperature L (Coord lat lon) p1 s))).
Proof.
  intros Hfirst Hsame.
  pose proof (get_dataset_returns_cached _ _ _ _ Hfirst) as Hcached.
  split.
  - pose proof (bbox_cache_after bbox p1 masked s ds s1 Hfirst) as Hcache.
    set (st := snd (get_soil_temperatures_in_bbox L bbox p1 masked s)) in *.
    assert (_get_dataset L p2 st = (Returned ds, st)) as Hsecond.
    { apply get_dataset_hit. rewrite Hsame, Hcache. exact Hcached. }
    rewrite (point_coord_acquired lat lon p2 st ds st Hsecond). reflexivity.
  - rewrite (point_coord_acquired lat lon p1 s ds s1 Hfirst). cbn [snd].
    match goal with
    | |- context [get_soil_temperatures_in_bbox L bbox p2 masked ?st0] =>
        set (st := st0)
    end.
    assert (_get_dataset L p2 st = (Returned ds, st)) as Hsecond.
    { apply get_dataset_hit. rewrite Hsame. exact Hcached. }
    destruct bbox as [[[lat_min lon_min] lat_max] lon_max].
    unfold get_soil_temperatures_in_bbox.
    rewrite (bind_returned _ _ _ _ _ Hsecond).
    destruct (outside _ _ _ _ _ _); [reflexivity|].
    unfold bind, lift, ds_read, emit, ret.
    destruct (from_bounds L _ _ _ _ _) as [w0|e]; simpl; [|reflexivity].
    destruct (round_offsets L w0) as [w1|e]; simpl; [|reflexivity].
    destruct (round_lengths L w1) as [w2|e]; simpl; [|reflexivity].
    destruct (intersection w2 _) as [w|e]; simpl; [|reflexivity].
    destruct (_ || _); simpl; [reflexivity|].
    destruct (read (raster_of ds) 1 w) as [data|e]; simpl; [|reflexivity].
    destruct (mask_all data); [|destruct masked]; fill_cases.
Qed.

End Properties.

(** * Properties of the two scripts *)

Section ScriptProperties.

Context {float Affine : Type} (L : Library float Affine) (SL : ScriptLibrary float Affine).

(** X18: run as a script, [soil_temp_lookup.py] exits with status 1 and one
    line on stderr, nothing on stdout, when geopy is missing
    ("geopy is required ...") and when the geocoder, called for the first
    time in the process, finds no match for the address
    ("Address not found: ..."), whatever the raster path. *)
Theorem lookup_cli_geocoding_failures address tif :
  (geopy_installed L = false ->
   lookup_cli L SL address tif
   = {| outputs :=
          [Stderr (String.append "❌ "
             (exn_str SL (RuntimeError
                "geopy is required for address lookup. Install via `pip install geopy`.")))];
        ending := Exit 1 |}) /\
  (geopy_installed L = true ->
   nominatim_geocode L 0 "soil-temp-lookup" address 5 = Returned None ->
   lookup_cli L SL address tif
   = {| outputs :=
          [Stderr (String.append "❌ "
             (exn_str SL (ValueError (String.append "Address not found: "
                                                    (py_repr L address)))))];
        ending := Exit 1 |}).
Proof.
  split.
  - intros Hgeo. unfold lookup_cli.
    rewrite (point_address_failed L address _ _ _ _
               (geocode_no_geopy L address (initial_state float Affine) eq_refl Hgeo)).
    reflexivity.
  - intros Hgeo Hnone. unfold lookup_cli.
    pose proof (geocode_miss L address (initial_state float Affine) eq_refl Hgeo) as Hg.
    change (count_geocodes (log (initial_state float Affine))) with 0%nat in Hg.
    rewrite Hnone in Hg.
    rewrite (point_address_failed L address _ _ _ _ Hg). reflexivity.
Qed.

(** X19: when the geocoder, called for the first time in the process,
    finds the address at (lat, lon) and the point
    query on (lat, lon) returns -- a temperature or [None] -- the script
    prints the one JSON line for the address and that result and exits with
    status 0: a nodata pixel is not an error. *)
Theorem lookup_cli_prints_result address tif lat lon temp :
  geopy_installed L = true ->
  nominatim_geocode L 0 "soil-temp-lookup" address 5 = Returned (Some (lat, lon)) ->
  fst (get_soil_temperature L (Coord lat lon)
         (match tif with Some p => p | None => DEFAULT_TIF end)
         (initial_state float Affine))
  = Returned temp ->
  lookup_cli L SL address tif
  = {| outputs := [Stdout (json_dumps SL address temp)]; ending := Exit 0 |}.
Proof.
  intros Hgeo Hfound Hpoint. unfold lookup_cli.
  pose proof (geocode_miss L address (initial_state float Affine) eq_refl Hgeo) as Hg.
  change (count_geocodes (log (initial_state float Affine))) with 0%nat in Hg.
  rewrite Hfound in Hg.
  rewrite (address_as_coord L address lat lon _ _ _ Hg), Hpoint. reflexivity.
Qed.

Lemma print_stats_ending stats printed :
  ending (print_stats SL stats printed) = Exit 0 \/
  exists e, ending (print_stats SL stats printed) = Uncaught e.
Proof.
  revert printed. induction stats as [|[k v] stats IH]; intros printed; simpl.
  - left. reflexivity.
  - destruct (format_stat SL k v) as [line|e]; [apply IH | right; eexists; reflexivity].
Qed.

Lemma print_stats_no_plot stats printed :
  ~ In PlotShown printed -> ~ In PlotShown (outputs (print_stats SL stats printed)).
Proof.
  revert printed. induction stats as [|[k v] stats IH]; intros printed Hno; simpl.
  - exact Hno.
  - destruct (format_stat SL k v) as [line|e]; [|exact Hno].
    apply IH. rewrite in_app_iff. intros [H|[H|[]]]; [auto | discriminate].
Qed.

Lemma print_stats_cons stats x printed :
  print_stats SL stats (x :: printed)
  = {| outputs := x :: outputs (print_stats SL stats printed);
       ending := ending (print_stats SL stats printed) |}.
Proof.
  revert printed. induction stats as [|[k v] stats IH]; intros printed; simpl.
  - reflexivity.
  - destruct (format_stat SL k v) as [line|e]; [|reflexivity].
    apply (IH (printed ++ [Stdout line])%list).
Qed.

Local Arguments print_stats : simpl never.

Lemma metadata_no_plot (src : Raster float Affine) printed :
  ~ In PlotShown printed ->
  ~ In PlotShown
      (printed ++ Stdout "=== Metadata ==="
                  :: map (fun kv : string * string =>
                            Stdout (String.append (fst kv) (String.append ": " (snd kv))))
                         (profile_items SL src))%list.
Proof.
  intros Hno. rewrite in_app_iff. intros [H|[H|H]]; [auto | discriminate |].
  apply in_map_iff in H. destruct H as (kv & Hkv & _). discriminate.
Qed.

(** X20: [main] shows the plot only when it was asked to, matplotlib was
    imported and the file exists, and then as the last thing of a run in
    which everything before succeeded. *)
Theorem main_plots_only_at_the_end_of_a_good_run tif_path show_plot :
  In PlotShown (outputs (main L SL tif_path show_plot)) ->
  show_plot = true /\
  plt_imported SL = true /\
  path_exists SL (path_str SL tif_path) = true /\
  ending (main L SL tif_path show_plot) = Exit 0 /\
  exists before,
    outputs (main L SL tif_path show_plot) = (before ++ [PlotShown])%list /\
    ~ In PlotShown before.
Proof.
  unfold main.
  set (warned := show_plot && negb (plt_imported SL)).
  set (printed := if warned then [Stdout MATPLOTLIB_WARNING] else []).
  assert (~ In PlotShown printed) as Hprinted.
  { unfold printed. destruct warned; simpl; [intros [H|[]]; discriminate | tauto]. }
  destruct (path_exists SL (path_str SL tif_path)) eqn:Hexists; simpl.
  2: { rewrite in_app_iff. intros [H|[H|[]]]; [contradiction | discriminate]. }
  destruct (disk L (path_str SL tif_path)) as [src|]; simpl; [|contradiction].
  pose proof (metadata_no_plot src printed Hprinted) as Hmeta.
  destruct (read_band SL src 1) as [data|e]; simpl; [|contradiction].
  destruct (np_nanmin SL data) as [lo|e]; simpl; [|contradiction].
  destruct (np_nanmean SL data) as [mean|e]; simpl; [|contradiction].
  destruct (np_nanmax SL data) as [hi|e]; simpl; [|contradiction].
  match goal with
  | |- context [print_stats SL ?st ?pr] =>
      pose proof (print_stats_no_plot st pr) as Hstats;
      set (after_stats := print_stats SL st pr) in *
  end.
  assert (~ In PlotShown (outputs after_stats)) as Hafter.
  { apply Hstats. rewrite in_app_iff. intros [H|[H|[]]]; [contradiction | discriminate]. }
  destruct (ending after_stats) as [code|e]; [|contradiction].
  destruct (if warned then false else show_plot) eqn:Hshow; [|contradiction].
  intros _. simpl.
  assert (show_plot = true /\ plt_imported SL = true) as [-> ->].
  { unfold warned in Hshow. destruct show_plot, (plt_imported SL); simpl in Hshow;
      try discriminate; split; reflexivity. }
  repeat split. exists (outputs after_stats). split; [reflexivity | exact Hafter].
Qed.

(** X21: with matplotlib missing, [main] asked to plot prints the warning
    and then does exactly what [main] with [show_plot=False] does. *)
Theorem main_headless_fallback tif_path :
  plt_imported SL = false ->
  main L SL tif_path true
  = {| outputs := Stdout MATPLOTLIB_WARNING :: outputs (main L SL tif_path false);
       ending := ending (main L SL tif_path false) |}.
Proof.
  intros Hplt. unfold main. rewrite Hplt. simpl.
  destruct (path_exists SL (path_str SL tif_path)); simpl; [|reflexivity].
  destruct (disk L (path_str SL tif_path)) as [src|]; simpl; [|reflexivity].
  destruct (read_band SL src 1) as [data|e]; simpl; [|reflexivity].
  destruct (np_nanmin SL data) as [lo|e]; simpl; [|reflexivity].
  destruct (np_nanmean SL data) as [mean|e]; simpl; [|reflexivity].
  destruct (np_nanmax SL data) as [hi|e]; simpl; [|reflexivity].
  rewrite print_stats_cons. simpl.
  match goal with |- context [print_stats SL ?st ?pr] => destruct (print_stats SL st pr) as [out [code|e]] end;
    reflexivity.
Qed.

(** X22: [main] ends with exit status 1 exactly when the file does not
    exist, and then its last line is the "not found" guidance; every other
    run ends with status 0 or with an uncaught exception. *)
Theorem main_exit_status tif_path show_plot :
  (ending (main L SL tif_path show_plot) = Exit 1 <->
   path_exists SL (path_str SL tif_path) = false) /\
  (path_exists SL (path_str SL tif_path) = false ->
   exists before,
     outputs (main L SL tif_path show_plot)
     = (before ++ [Stdout (not_found_message (path_str SL tif_path))])%list) /\
  (path_exists SL (path_str SL tif_path) = true ->
   ending (main L SL tif_path show_plot) = Exit 0 \/
   exists e, ending (main L SL tif_path show_plot) = Uncaught e).
Proof.
  assert (path_exists SL (path_str SL tif_path) = true ->
          ending (main L SL tif_path show_plot) = Exit 0 \/
          exists e, ending (main L SL tif_path show_plot) = Uncaught e) as Hgood.
  { intros Hexists. unfold main. rewrite Hexists. simpl.
    destruct (disk L (path_str SL tif_path)) as [src|]; simpl;
      [|right; eexists; reflexivity].
    destruct (read_band SL src 1) as [data|e]; simpl; [|right; eexists; reflexivity].
    destruct (np_nanmin SL data) as [lo|e]; simpl; [|right; eexists; reflexivity].
    destruct (np_nanmean SL data) as [mean|e]; simpl; [|right; eexists; reflexivity].
    destruct (np_nanmax SL data) as [hi|e]; simpl; [|right; eexists; reflexivity].
    match goal with
    | |- context [print_stats SL ?st ?pr] =>
        destruct (print_stats_ending st pr) as [Hend|[e Hend]];
        set (after_stats := print_stats SL st pr) in *
    end; rewrite Hend.
    - destruct (if show_plot && negb (plt_imported SL) then false else show_plot);
        simpl; left; [reflexivity | exact Hend].
    - right. exists e. exact Hend. }
  split; [|split; [|exact Hgood]].
  - split.
    + intros Hend.
      destruct (path_exists SL (path_str SL tif_path)) eqn:Hexists; [|reflexivity].
      destruct (Hgood eq_refl) as [H0|[e He]]; congruence.
    + intros Hmissing. unfold main. rewrite Hmissing. reflexivity.
  - intros Hmissing. unfold main. rewrite Hmissing. simpl. eexists. reflexivity.
Qed.

End ScriptProperties.

(** * Runs in the demo world *)

Lemma C1_nodata_policy_witness :
  resolve_coord Demo.lib (Coord (Demo.Fin (11 # 2)) (Demo.Fin (11 # 2))) Demo.s0
  = (Returned (Demo.Fin (11 # 2), Demo.Fin (11 # 2)), Demo.s0) /\
  _get_dataset Demo.lib "soil.tif" Demo.s0 = (Returned Demo.soil, Demo.s_soil) /\
  sample (raster_of Demo.soil) [(Demo.Fin (11 # 2), Demo.Fin (11 # 2))]
  = Returned [[Demo.Fin (31 # 2)]] /\
  exists result s3,
    get_soil_temperature Demo.lib (Coord (Demo.Fin (11 # 2)) (Demo.Fin (11 # 2)))
                         "soil.tif" Demo.s0
    = (Returned result, s3) /\
    (forall nd, nodata (raster_of Demo.soil) = Some nd ->
                np_isclose Demo.lib (Demo.Fin (31 # 2)) nd = true -> result = None) /\
    (np_isnan Demo.lib (Demo.Fin (31 # 2)) = true -> result = None) /\
    ((forall nd, nodata (raster_of Demo.soil) = Some nd ->
                 np_isclose Demo.lib (Demo.Fin (31 # 2)) nd = false) ->
     np_isnan Demo.lib (Demo.Fin (31 # 2)) = false ->
     result = Some (py_float Demo.lib (Demo.Fin (31 # 2)))).
Proof.
  assert (H1 : resolve_coord Demo.lib (Coord (Demo.Fin (11 # 2)) (Demo.Fin (11 # 2))) Demo.s0
               = (Returned (Demo.Fin (11 # 2), Demo.Fin (11 # 2)), Demo.s0))
    by reflexivity.
  assert (H2 : _get_dataset Demo.lib "soil.tif" Demo.s0 = (Returned Demo.soil, Demo.s_soil))
    by reflexivity.
  assert (H3 : sample (raster_of Demo.soil) [(Demo.Fin (11 # 2), Demo.Fin (11 # 2))]
               = Returned [[Demo.Fin (31 # 2)]])
    by reflexivity.
  exact (conj H1 (conj H2 (conj H3
           (C1_nodata_policy Demo.lib _ "soil.tif" _ _ _ _ _ _ _ _ _ H1 H2 H3)))).
Defined.

Lemma C3_fast_reject_witness :
  _get_dataset Demo.lib "soil.tif" Demo.s0 = (Returned Demo.soil, Demo.s_soil) /\
  float_lt Demo.lib (top (bounds (raster_of Demo.soil))) (Demo.Fin 11) = true /\
  get_soil_temperatures_in_bbox Demo.lib Demo.far_box "soil.tif" false Demo.s0
  = (Returned None, Demo.s_soil) /\
  count_reads (log Demo.s_soil) = count_reads (log Demo.s0).
Proof.
  assert (H1 : _get_dataset Demo.lib "soil.tif" Demo.s0 = (Returned Demo.soil, Demo.s_soil))
    by reflexivity.
  assert (H2 : float_lt Demo.lib (top (bounds (raster_of Demo.soil))) (Demo.Fin 11) = true)
    by reflexivity.
  split; [exact H1|]. split; [exact H2|].
  apply (C3_fast_reject Demo.lib (Demo.Fin 11) (Demo.Fin 0) (Demo.Fin 12) (Demo.Fin 1)
                        "soil.tif" false Demo.s0 Demo.soil Demo.s_soil H1).
  right. right. right. exact H2.
Defined.

Lemma read_window_lies_inside_raster_witness :
  _get_dataset Demo.lib "soil.tif" Demo.s0 = (Returned Demo.soil, Demo.s_soil) /\
  outside Demo.lib (bounds (raster_of Demo.soil))
          (Demo.Fin 8) (Demo.Fin 8) (Demo.Fin 12) (Demo.Fin 12) = false /\
  from_bounds Demo.lib (Demo.Fin 8) (Demo.Fin 8) (Demo.Fin 12) (Demo.Fin 12)
              (transform (raster_of Demo.soil)) = Returned Demo.corner_raw /\
  round_offsets Demo.lib Demo.corner_raw = Returned Demo.corner_raw /\
  round_lengths Demo.lib Demo.corner_raw = Returned Demo.corner_raw /\
  intersection Demo.corner_raw
               (mkWindow 0 0 (inject_Z (raster_width (raster_of Demo.soil)))
                             (inject_Z (raster_height (raster_of Demo.soil))))
  = Returned Demo.corner_clipped /\
  (0 < width Demo.corner_clipped /\ 0 < height Demo.corner_clipped)%Q /\
  log (snd (get_soil_temperatures_in_bbox Demo.lib Demo.corner_box "soil.tif" false Demo.s0))
  = EvRead (oid_of Demo.soil) Demo.corner_clipped :: log Demo.s_soil /\
  (0 <= col_off Demo.corner_clipped /\ 0 <= row_off Demo.corner_clipped /\
   col_off Demo.corner_clipped + width Demo.corner_clipped
   <= inject_Z (raster_width (raster_of Demo.soil)) /\
   row_off Demo.corner_clipped + height Demo.corner_clipped
   <= inject_Z (raster_height (raster_of Demo.soil)))%Q.
Proof.
  assert (H1 : _get_dataset Demo.lib "soil.tif" Demo.s0 = (Returned Demo.soil, Demo.s_soil))
    by reflexivity.
  assert (H2 : outside Demo.lib (bounds (raster_of Demo.soil))
                       (Demo.Fin 8) (Demo.Fin 8) (Demo.Fin 12) (Demo.Fin 12) = false)
    by reflexivity.
  assert (H3 : from_bounds Demo.lib (Demo.Fin 8) (Demo.Fin 8) (Demo.Fin 12) (Demo.Fin 12)
                           (transform (raster_of Demo.soil)) = Returned Demo.corner_raw)
    by reflexivity.
  assert (H4 : round_offsets Demo.lib Demo.corner_raw = Returned Demo.corner_raw)
    by reflexivity.
  assert (H5 : round_lengths Demo.lib Demo.corner_raw = Returned Demo.corner_raw)
    by reflexivity.
  assert (H6 : intersection Demo.corner_raw
                 (mkWindow 0 0 (inject_Z (raster_width (raster_of Demo.soil)))
                               (inject_Z (raster_height (raster_of Demo.soil))))
               = Returned Demo.corner_clipped)
    by reflexivity.
  assert (H7 : (0 < width Demo.corner_clipped /\ 0 < height Demo.corner_clipped)%Q)
    by (split; reflexivity).
  repeat (split; [assumption|]).
  exact (proj2 (read_window_lies_inside_raster Demo.lib _ _ _ _ "soil.tif" false Demo.s0 _ _ _ _ _ _
                                  H1 H2 H3 H4 H5 H6) H7).
Defined.

Lemma bbox_result_masked_or_filled_witness :
  _get_dataset Demo.lib "soil.tif" Demo.s0 = (Returned Demo.soil, Demo.s_soil) /\
  outside Demo.lib (bounds (raster_of Demo.soil))
          (Demo.Fin 8) (Demo.Fin 8) (Demo.Fin 12) (Demo.Fin 12) = false /\
  from_bounds Demo.lib (Demo.Fin 8) (Demo.Fin 8) (Demo.Fin 12) (Demo.Fin 12)
              (transform (raster_of Demo.soil)) = Returned Demo.corner_raw /\
  round_offsets Demo.lib Demo.corner_raw = Returned Demo.corner_raw /\
  round_lengths Demo.lib Demo.corner_raw = Returned Demo.corner_raw /\
  intersection Demo.corner_raw
               (mkWindow 0 0 (inject_Z (raster_width (raster_of Demo.soil)))
                             (inject_Z (raster_height (raster_of Demo.soil))))
  = Returned Demo.corner_clipped /\
  (0 < width Demo.corner_clipped /\ 0 < height Demo.corner_clipped)%Q /\
  read (raster_of Demo.soil) 1 Demo.corner_clipped = Returned Demo.corner_data /\
  ~ (forall row cell, In row Demo.corner_data -> In cell row -> snd cell = true) /\
  fst (get_soil_temperatures_in_bbox Demo.lib Demo.corner_box "soil.tif" true Demo.s0)
  = Returned (Some (MaskedResult Demo.corner_data)).
Proof.
  assert (H1 : _get_dataset Demo.lib "soil.tif" Demo.s0 = (Returned Demo.soil, Demo.s_soil))
    by reflexivity.
  assert (H2 : outside Demo.lib (bounds (raster_of Demo.soil))
                       (Demo.Fin 8) (Demo.Fin 8) (Demo.Fin 12) (Demo.Fin 12) = false)
    by reflexivity.
  assert (H3 : from_bounds Demo.lib (Demo.Fin 8) (Demo.Fin 8) (Demo.Fin 12) (Demo.Fin 12)
                           (transform (raster_of Demo.soil)) = Returned Demo.corner_raw)
    by reflexivity.
  assert (H4 : round_offsets Demo.lib Demo.corner_raw = Returned Demo.corner_raw)
    by reflexivity.
  assert (H5 : round_lengths Demo.lib Demo.corner_raw = Returned Demo.corner_raw)
    by reflexivity.
  assert (H6 : intersection Demo.corner_raw
                 (mkWindow 0 0 (inject_Z (raster_width (raster_of Demo.soil)))
                               (inject_Z (raster_height (raster_of Demo.soil))))
               = Returned Demo.corner_clipped)
    by reflexivity.
  assert (H7 : (0 < width Demo.corner_clipped /\ 0 < height Demo.corner_clipped)%Q)
    by (split; reflexivity).
  assert (H8 : read (raster_of Demo.soil) 1 Demo.corner_clipped = Returned Demo.corner_data)
    by reflexivity.
  assert (H9 : ~ (forall row cell,
                     In row Demo.corner_data -> In cell row -> snd cell = true)).
  { intros Hall.
    specialize (Hall [(Demo.Fin 10, false); (Demo.Fin 10, false)] (Demo.Fin 10, false)
                     (or_introl eq_refl) (or_introl eq_refl)).
    discriminate. }
  repeat (split; [assumption|]).
  exact (proj1 (proj2 (bbox_result_masked_or_filled Demo.lib _ _ _ _ "soil.tif" true
                         Demo.s0 _ _ _ _ _ _ _ H1 H2 H3 H4 H5 H6 H7 H8) H9) eq_refl).
Defined.

(** C4: the code at a box that overlaps the raster's west edge by a fifth
    of a degree: the rounded window lies outside [Window(0, 0, 10, 10)],
    [Window.intersection] raises [WindowError], and the query fails instead
    of returning [None]; the guard on the width and height is not reached. *)
Theorem C4_overlapping_box_raises :
  outside Demo.lib (bounds (raster_of Demo.soil))
          (Demo.Fin 8) (Demo.Fin (-1 # 2)) (Demo.Fin 9) (Demo.Fin (1 # 5)) = false /\
  get_soil_temperatures_in_bbox Demo.lib DemoScripts.west_box "soil.tif" false Demo.s0
  = (Raised (WindowError "windows do not intersect"), Demo.s_soil).
Proof. split; reflexivity. Qed.

(** C5: the code at a raster of integer dtype with [masked=False]: the
    window holds valid pixels, [filled(nan)] raises [TypeError] because the
    dtype cannot hold NaN, and no array is returned; with [masked=True] the
    same query returns the masked array. *)
Theorem C5_integer_raster_raises :
  fst (get_soil_temperatures_in_bbox Demo.lib Demo.corner_box "/work/int16.tif" false
         Demo.s0)
  = Raised (TypeError "Cannot convert fill_value nan to dtype int16") /\
  fst (get_soil_temperatures_in_bbox Demo.lib Demo.corner_box "/work/int16.tif" true
         Demo.s0)
  = Returned (Some (MaskedResult
       [[(Demo.Int 10, false); (Demo.Int 10, false)];
        [(Demo.Int 10, false); (Demo.Int 10, false)]])).
Proof. split; reflexivity. Qed.

Lemma C6_cache_invariant_witness :
  reachable Demo.lib (run_call Demo.lib (CallGetDataset "/work/utm.tif") Demo.s0) /\
  (forall key ds,
      dataset_cache (run_call Demo.lib (CallGetDataset "/work/utm.tif") Demo.s0) !! key
      = Some ds ->
      (exists c, ds_crs ds = Some c /\ to_epsg c = Some 4326) /\
      handle_ok Demo.lib key ds /\
      (exists path, key = expanduser_resolve Demo.lib path)) /\
  (forall call key ds,
      dataset_cache (run_call Demo.lib (CallGetDataset "/work/utm.tif") Demo.s0) !! key
      = Some ds ->
      dataset_cache (run_call Demo.lib call
                       (run_call Demo.lib (CallGetDataset "/work/utm.tif") Demo.s0)) !! key
      = Some ds).
Proof.
  assert (H : reachable Demo.lib (run_call Demo.lib (CallGetDataset "/work/utm.tif") Demo.s0))
    by (apply reach_call; apply reach_init).
  split; [exact H|].
  exact (C6_cache_invariant Demo.lib _ H).
Defined.

Lemma C7_missing_crs_witness :
  disk Demo.lib (expanduser_resolve Demo.lib "nocrs.tif") = Some (Demo.grid None) /\
  crs (Demo.grid None) = None /\
  (forall s,
      dataset_cache s !! expanduser_resolve Demo.lib "nocrs.tif" = None ->
      exists s',
        _get_dataset Demo.lib "nocrs.tif" s
        = (Raised (RuntimeError "Raster has no CRS – cannot locate coordinates."), s') /\
        dataset_cache s' = dataset_cache s) /\
  (forall s, reachable Demo.lib s ->
             dataset_cache s !! expanduser_resolve Demo.lib "nocrs.tif" = None).
Proof.
  assert (H1 : disk Demo.lib (expanduser_resolve Demo.lib "nocrs.tif")
               = Some (Demo.grid None)) by reflexivity.
  assert (H2 : crs (Demo.grid None) = None) by reflexivity.
  split; [exact H1|]. split; [exact H2|].
  exact (C7_missing_crs Demo.lib "nocrs.tif" (Demo.grid None) H1 H2).
Defined.

Lemma C8_geocode_errors_witness :
  reachable Demo.lib_no_geopy Demo.s0 /\
  geopy_installed Demo.lib_no_geopy = false /\
  get_soil_temperature Demo.lib_no_geopy (Address "Nowhere") "soil.tif" Demo.s0
  = (Raised (RuntimeError
       "geopy is required for address lookup. Install via `pip install geopy`."),
     Demo.s0) /\
  reachable Demo.lib Demo.s0 /\
  geopy_installed Demo.lib = true /\
  lru_find "Nowhere" (geocode_lru Demo.s0) = None /\
  nominatim_geocode Demo.lib (count_geocodes (log Demo.s0)) "soil-temp-lookup" "Nowhere" 5
  = Returned None /\
  exists s',
    _geocode Demo.lib "Nowhere" Demo.s0
    = (Raised (ValueError "Address not found: 'Nowhere'"), s') /\
    get_soil_temperature Demo.lib (Address "Nowhere") "soil.tif" Demo.s0
    = (Raised (ValueError "Address not found: 'Nowhere'"), s').
Proof.
  assert (H1 : reachable Demo.lib_no_geopy Demo.s0) by apply reach_init.
  assert (H2 : geopy_installed Demo.lib_no_geopy = false) by reflexivity.
  assert (H3 : reachable Demo.lib Demo.s0) by apply reach_init.
  assert (H4 : geopy_installed Demo.lib = true) by reflexivity.
  assert (H5 : lru_find "Nowhere" (geocode_lru Demo.s0) = None) by reflexivity.
  assert (H6 : nominatim_geocode Demo.lib (count_geocodes (log Demo.s0))
                                 "soil-temp-lookup" "Nowhere" 5 = Returned None)
    by reflexivity.
  split; [exact H1|]. split; [exact H2|]. split.
  - exact (proj2 (proj1 (C8_geocode_errors Demo.lib_no_geopy "Nowhere" "soil.tif"
                                           Demo.s0 H1) H2)).
  - split; [exact H3|]. split; [exact H4|]. split; [exact H5|]. split; [exact H6|].
    exact (proj1 (proj2 (C8_geocode_errors Demo.lib "Nowhere" "soil.tif" Demo.s0 H3))
                 H4 H5 H6).
Defined.

Lemma C10_acquire_before_fast_reject_witness :
  reachable Demo.lib Demo.s_soil /\
  disk Demo.lib (expanduser_resolve Demo.lib "missing.tif") = None /\
  exists e s',
    get_soil_temperatures_in_bbox Demo.lib Demo.far_box "missing.tif" false Demo.s_soil
    = (Raised e, s') /\
    (e = RasterioIOError (expanduser_resolve Demo.lib "missing.tif") \/
     e = RuntimeError "Raster has no CRS – cannot locate coordinates.") /\
    count_reads (log s') = count_reads (log Demo.s_soil).
Proof.
  assert (H1 : reachable Demo.lib Demo.s_soil)
    by (apply (reach_call Demo.lib Demo.s0 (CallGetDataset "soil.tif")); apply reach_init).
  assert (H2 : disk Demo.lib (expanduser_resolve Demo.lib "missing.tif") = None)
    by reflexivity.
  split; [exact H1|]. split; [exact H2|].
  exact (C10_acquire_before_fast_reject Demo.lib Demo.far_box "missing.tif" false
           Demo.s_soil H1 (or_introl H2)).
Defined.



(** C9 as stated fails on a raster without a CRS: both calls raise, and
    each of them opens the raster. *)
Lemma C9_counterexample :
  fst (get_soil_temperature Demo.lib (Coord (Demo.Fin 1) (Demo.Fin 1)) "nocrs.tif" Demo.s0)
  = Raised (RuntimeError "Raster has no CRS – cannot locate coordinates.") /\
  fst (get_soil_temperature Demo.lib (Coord (Demo.Fin 1) (Demo.Fin 1)) "nocrs.tif"
         (snd (get_soil_temperature Demo.lib (Coord (Demo.Fin 1) (Demo.Fin 1))
                 "nocrs.tif" Demo.s0)))
  = Raised (RuntimeError "Raster has no CRS – cannot locate coordinates.") /\
  count_opens
    (log (snd (get_soil_temperature Demo.lib (Coord (Demo.Fin 1) (Demo.Fin 1)) "nocrs.tif"
                 (snd (get_soil_temperature Demo.lib (Coord (Demo.Fin 1) (Demo.Fin 1))
                         "nocrs.tif" Demo.s0)))))
  = 2%nat.
Proof. repeat split. Qed.

Lemma C9_point_lookup_twice_witness :
  _get_dataset Demo.lib "soil.tif" Demo.s0 = (Returned Demo.soil, Demo.s_soil) /\
  fst (get_soil_temperature Demo.lib (Coord (Demo.Fin (11 # 2)) (Demo.Fin (11 # 2)))
         "soil.tif"
         (snd (get_soil_temperature Demo.lib (Coord (Demo.Fin (11 # 2)) (Demo.Fin (11 # 2)))
                 "soil.tif" Demo.s0)))
  = fst (get_soil_temperature Demo.lib (Coord (Demo.Fin (11 # 2)) (Demo.Fin (11 # 2)))
           "soil.tif" Demo.s0) /\
  (count_opens
     (log (snd (get_soil_temperature Demo.lib
                  (Coord (Demo.Fin (11 # 2)) (Demo.Fin (11 # 2))) "soil.tif"
                  (snd (get_soil_temperature Demo.lib
                          (Coord (Demo.Fin (11 # 2)) (Demo.Fin (11 # 2)))
                          "soil.tif" Demo.s0)))))
   <= S (count_opens (log Demo.s0)))%nat.
Proof.
  assert (H1 : _get_dataset Demo.lib "soil.tif" Demo.s0 = (Returned Demo.soil, Demo.s_soil))
    by reflexivity.
  split; [exact H1|].
  pose proof (C9_point_lookup_twice Demo.lib (Demo.Fin (11 # 2)) (Demo.Fin (11 # 2))
                "soil.tif" Demo.s0) as [Hsame Hopens].
  split; [exact Hsame | exact (Hopens _ _ H1)].
Defined.

(** ** Runs for the further properties *)

Lemma unreadable_raster_raises_witness :
  reachable Demo.lib Demo.s_soil /\
  disk Demo.lib (expanduser_resolve Demo.lib "missing.tif") = None /\
  _get_dataset Demo.lib "missing.tif" Demo.s_soil
  = (Raised (RasterioIOError "/work/missing.tif"), Demo.s_soil) /\
  get_soil_temperature Demo.lib (Coord (Demo.Fin 1) (Demo.Fin 1)) "missing.tif" Demo.s_soil
  = (Raised (RasterioIOError "/work/missing.tif"), Demo.s_soil).
Proof.
  assert (H1 : reachable Demo.lib Demo.s_soil)
    by (apply (reach_call Demo.lib Demo.s0 (CallGetDataset "soil.tif")); apply reach_init).
  assert (H2 : disk Demo.lib (expanduser_resolve Demo.lib "missing.tif") = None)
    by reflexivity.
  split; [exact H1|]. split; [exact H2|].
  exact (unreadable_raster_raises Demo.lib "missing.tif" (Demo.Fin 1) (Demo.Fin 1)
           Demo.s_soil H1 H2).
Defined.

Lemma raster_opened_at_most_once_witness :
  reachable Demo.lib Demo.s_soil /\
  disk Demo.lib "/work/soil.tif" = Some (Demo.grid (Some (EPSG 4326))) /\
  crs (Demo.grid (Some (EPSG 4326))) = Some (EPSG 4326) /\
  to_epsg (EPSG 4326) = Some 4326 /\
  opens_of "/work/soil.tif" (log Demo.s_soil)
  = match dataset_cache Demo.s_soil !! "/work/soil.tif" with
    | Some _ => 1%nat
    | None => 0%nat
    end /\
  (opens_of "/work/soil.tif" (log Demo.s_soil) <= 1)%nat.
Proof.
  assert (H1 : reachable Demo.lib Demo.s_soil)
    by (apply (reach_call Demo.lib Demo.s0 (CallGetDataset "soil.tif")); apply reach_init).
  assert (H2 : disk Demo.lib "/work/soil.tif" = Some (Demo.grid (Some (EPSG 4326))))
    by reflexivity.
  assert (H3 : crs (Demo.grid (Some (EPSG 4326))) = Some (EPSG 4326)) by reflexivity.
  assert (H4 : to_epsg (EPSG 4326) = Some 4326) by reflexivity.
  split; [exact H1|]. split; [exact H2|]. split; [exact H3|]. split; [exact H4|].
  exact (raster_opened_at_most_once Demo.lib Demo.s_soil "/work/soil.tif" _ _
           H1 H2 H3 (or_introl H4)).
Defined.

Lemma handle_kept_for_process_lifetime_witness :
  _get_dataset Demo.lib "soil.tif" Demo.s0 = (Returned Demo.soil, Demo.s_soil) /\
  expanduser_resolve Demo.lib "/work/soil.tif" = expanduser_resolve Demo.lib "soil.tif" /\
  _get_dataset Demo.lib "/work/soil.tif"
    (run_calls Demo.lib
       [CallPoint (Address "Nowhere") "nocrs.tif"; CallBbox Demo.far_box "/work/utm.tif" true]
       Demo.s_soil)
  = (Returned Demo.soil,
     run_calls Demo.lib
       [CallPoint (Address "Nowhere") "nocrs.tif"; CallBbox Demo.far_box "/work/utm.tif" true]
       Demo.s_soil).
Proof.
  assert (H1 : _get_dataset Demo.lib "soil.tif" Demo.s0 = (Returned Demo.soil, Demo.s_soil))
    by reflexivity.
  assert (H2 : expanduser_resolve Demo.lib "/work/soil.tif"
               = expanduser_resolve Demo.lib "soil.tif") by reflexivity.
  split; [exact H1|]. split; [exact H2|].
  exact (handle_kept_for_process_lifetime Demo.lib "soil.tif" "/work/soil.tif" Demo.s0
           Demo.soil Demo.s_soil _ H1 H2).
Defined.

Lemma cached_handles_are_distinct_objects_witness :
  reachable Demo.lib (run_call Demo.lib (CallGetDataset "/work/utm.tif") Demo.s_soil) /\
  forall k1 k2 ds1 ds2,
    dataset_cache (run_call Demo.lib (CallGetDataset "/work/utm.tif") Demo.s_soil) !! k1
    = Some ds1 ->
    dataset_cache (run_call Demo.lib (CallGetDataset "/work/utm.tif") Demo.s_soil) !! k2
    = Some ds2 ->
    oid_of ds1 = oid_of ds2 -> k1 = k2.
Proof.
  assert (H1 : reachable Demo.lib
                 (run_call Demo.lib (CallGetDataset "/work/utm.tif") Demo.s_soil)).
  { apply reach_call.
    apply (reach_call Demo.lib Demo.s0 (CallGetDataset "soil.tif")). apply reach_init. }
  split; [exact H1|].
  exact (proj2 (cached_handles_are_distinct_objects Demo.lib _ H1)).
Defined.

Lemma cache_written_only_under_own_path_witness :
  (forall path, call_path (CallGetDataset (float := Demo.num) "soil.tif") = Some path ->
                "/work/utm.tif" <> expanduser_resolve Demo.lib path) /\
  dataset_cache (run_call Demo.lib (CallGetDataset "soil.tif") Demo.s0) !! "/work/utm.tif"
  = dataset_cache Demo.s0 !! "/work/utm.tif".
Proof.
  assert (H1 : forall path,
             call_path (CallGetDataset (float := Demo.num) "soil.tif") = Some path ->
             "/work/utm.tif" <> expanduser_resolve Demo.lib path).
  { intros path Hpath. simpl in Hpath. injection Hpath as <-. vm_compute. discriminate. }
  split; [exact H1|].
  exact (cache_written_only_under_own_path Demo.lib (CallGetDataset "soil.tif") Demo.s0
           "/work/utm.tif" H1).
Defined.

Lemma geocode_memoised_witness :
  _geocode Demo.lib "Equator Cafe" Demo.s0
  = (Returned (Demo.Fin (11 # 2), Demo.Fin (11 # 2)), DemoScripts.s_cafe) /\
  exists s2,
    _geocode Demo.lib "Equator Cafe" DemoScripts.s_cafe
    = (Returned (Demo.Fin (11 # 2), Demo.Fin (11 # 2)), s2) /\
    log s2 = log DemoScripts.s_cafe /\
    dataset_cache s2 = dataset_cache DemoScripts.s_cafe.
Proof.
  assert (H1 : _geocode Demo.lib "Equator Cafe" Demo.s0
               = (Returned (Demo.Fin (11 # 2), Demo.Fin (11 # 2)), DemoScripts.s_cafe))
    by reflexivity.
  split; [exact H1|].
  exact (geocode_memoised Demo.lib "Equator Cafe" Demo.s0 _ _ H1).
Defined.

Lemma geocode_failure_not_memoised_witness :
  _geocode Demo.lib "Slow Lane" Demo.s0
  = (Raised (CollaboratorError "GeocoderTimedOut"), DemoScripts.s_slow) /\
  geopy_installed Demo.lib = true /\
  lru_find "Slow Lane" (geocode_lru DemoScripts.s_slow) = None /\
  fst (_geocode Demo.lib "Slow Lane" DemoScripts.s_slow)
  = Returned (Demo.Fin 1, Demo.Fin 1) /\
  log (snd (_geocode Demo.lib "Slow Lane" DemoScripts.s_slow))
  = EvGeocode "Slow Lane" :: log DemoScripts.s_slow.
Proof.
  assert (H1 : _geocode Demo.lib "Slow Lane" Demo.s0
               = (Raised (CollaboratorError "GeocoderTimedOut"), DemoScripts.s_slow))
    by reflexivity.
  assert (H2 : geopy_installed Demo.lib = true) by reflexivity.
  split; [exact H1|]. split; [exact H2|].
  pose proof (geocode_failure_not_memoised Demo.lib "Slow Lane" Demo.s0 _ _ H1)
    as (Hmiss & Hnext & _).
  split; [exact Hmiss|].
  destruct (Hnext H2) as [Hfst Hlog]. split; [|exact Hlog].
  rewrite Hfst. reflexivity.
Defined.

Lemma geolocator_constructed_at_most_once_witness :
  reachable Demo.lib (run_call Demo.lib (CallGeocode "Nowhere") DemoScripts.s_cafe) /\
  (count_geolocators
     (log (run_call Demo.lib (CallGeocode "Nowhere") DemoScripts.s_cafe)) <= 1)%nat.
Proof.
  assert (H1 : reachable Demo.lib
                 (run_call Demo.lib (CallGeocode "Nowhere") DemoScripts.s_cafe)).
  { apply reach_call.
    apply (reach_call Demo.lib Demo.s0 (CallGeocode "Equator Cafe")). apply reach_init. }
  split; [exact H1|].
  exact (proj2 (geolocator_constructed_at_most_once Demo.lib _ H1)).
Defined.

Lemma geocode_memo_bounded_witness :
  reachable Demo.lib DemoScripts.s_cafe /\
  (length (geocode_lru DemoScripts.s_cafe) <= 2048)%nat.
Proof.
  assert (H1 : reachable Demo.lib DemoScripts.s_cafe)
    by (apply (reach_call Demo.lib Demo.s0 (CallGeocode "Equator Cafe")); apply reach_init).
  split; [exact H1|].
  exact (geocode_memo_bounded Demo.lib _ H1).
Defined.

Lemma address_query_agrees_with_coordinates_witness :
  _geocode Demo.lib "Equator Cafe" Demo.s0
  = (Returned (Demo.Fin (11 # 2), Demo.Fin (11 # 2)), DemoScripts.s_cafe) /\
  fst (get_soil_temperature Demo.lib (Address "Equator Cafe") "soil.tif" Demo.s0)
  = fst (get_soil_temperature Demo.lib (Coord (Demo.Fin (11 # 2)) (Demo.Fin (11 # 2)))
           "soil.tif" Demo.s0).
Proof.
  assert (H1 : _geocode Demo.lib "Equator Cafe" Demo.s0
               = (Returned (Demo.Fin (11 # 2), Demo.Fin (11 # 2)), DemoScripts.s_cafe))
    by reflexivity.
  split; [exact H1|].
  exact (address_query_agrees_with_coordinates Demo.lib "Equator Cafe" _ _ "soil.tif"
           Demo.s0 _ H1).
Defined.

Lemma point_query_sampler_edges_witness :
  _get_dataset Demo.lib "soil.tif" Demo.s0 = (Returned Demo.soil, Demo.s_soil) /\
  log (snd (get_soil_temperature Demo.lib (Coord (Demo.Fin 1) (Demo.Fin 2))
              "soil.tif" Demo.s0))
  = EvSample (oid_of Demo.soil) :: log Demo.s_soil /\
  dataset_cache (snd (get_soil_temperature Demo.lib (Coord (Demo.Fin 1) (Demo.Fin 2))
                        "soil.tif" Demo.s0))
  = dataset_cache Demo.s_soil.
Proof.
  assert (H1 : _get_dataset Demo.lib "soil.tif" Demo.s0 = (Returned Demo.soil, Demo.s_soil))
    by reflexivity.
  split; [exact H1|].
  exact (proj2 (proj2 (point_query_sampler_edges Demo.lib (Demo.Fin 1) (Demo.Fin 2)
                         "soil.tif" Demo.s0 Demo.soil Demo.s_soil H1))).
Defined.

Lemma point_query_goes_through_reprojection_witness :
  dataset_cache Demo.s0 !! expanduser_resolve Demo.lib "/work/utm.tif" = None /\
  disk Demo.lib (expanduser_resolve Demo.lib "/work/utm.tif")
  = Some (Demo.grid (Some (EPSG 32633))) /\
  crs (Demo.grid (Some (EPSG 32633))) = Some (EPSG 32633) /\
  to_epsg (EPSG 32633) <> Some 4326 /\
  gdal_warp Demo.lib (Demo.grid (Some (EPSG 32633))) (EPSG 4326)
  = Returned DemoScripts.utm_view /\
  fst (get_soil_temperature Demo.lib (Coord (Demo.Fin (11 # 2)) (Demo.Fin (11 # 2)))
         "/work/utm.tif" Demo.s0)
  = Returned (Some (Demo.Fin (31 # 2))) /\
  dataset_cache Demo.s0 !! expanduser_resolve Demo.lib "/work/local.tif" = None /\
  disk Demo.lib (expanduser_resolve Demo.lib "/work/local.tif")
  = Some (Demo.grid (Some (WKT "LOCAL_CS"))) /\
  gdal_warp Demo.lib (Demo.grid (Some (WKT "LOCAL_CS"))) (EPSG 4326)
  = Raised (CollaboratorError "Cannot find coordinate operations to EPSG:4326") /\
  fst (get_soil_temperature Demo.lib (Coord (Demo.Fin (11 # 2)) (Demo.Fin (11 # 2)))
         "/work/local.tif" Demo.s0)
  = Raised (CollaboratorError "Cannot find coordinate operations to EPSG:4326").
Proof.
  assert (H1 : dataset_cache Demo.s0 !! expanduser_resolve Demo.lib "/work/utm.tif" = None)
    by reflexivity.
  assert (H2 : disk Demo.lib (expanduser_resolve Demo.lib "/work/utm.tif")
               = Some (Demo.grid (Some (EPSG 32633)))) by reflexivity.
  assert (H3 : crs (Demo.grid (Some (EPSG 32633))) = Some (EPSG 32633)) by reflexivity.
  assert (H4 : to_epsg (EPSG 32633) <> Some 4326) by discriminate.
  assert (H5 : gdal_warp Demo.lib (Demo.grid (Some (EPSG 32633))) (EPSG 4326)
               = Returned DemoScripts.utm_view) by reflexivity.
  assert (H6 : dataset_cache Demo.s0 !! expanduser_resolve Demo.lib "/work/local.tif"
               = None) by reflexivity.
  assert (H7 : disk Demo.lib (expanduser_resolve Demo.lib "/work/local.tif")
               = Some (Demo.grid (Some (WKT "LOCAL_CS")))) by reflexivity.
  assert (H8 : gdal_warp Demo.lib (Demo.grid (Some (WKT "LOCAL_CS"))) (EPSG 4326)
               = Raised (CollaboratorError
                           "Cannot find coordinate operations to EPSG:4326"))
    by reflexivity.
  assert (H9 : to_epsg (WKT "LOCAL_CS") <> Some 4326) by discriminate.
  split; [exact H1|]. split; [exact H2|]. split; [exact H3|]. split; [exact H4|].
  split; [exact H5|]. split.
  - rewrite (proj2 (proj1 (point_query_goes_through_reprojection Demo.lib
                             (Demo.Fin (11 # 2)) (Demo.Fin (11 # 2)) "/work/utm.tif"
                             Demo.s0 _ _ H1 H2 H3) H4) _ H5).
    reflexivity.
  - split; [exact H6|]. split; [exact H7|]. split; [exact H8|].
    exact (proj1 (proj1 (point_query_goes_through_reprojection Demo.lib
                           (Demo.Fin (11 # 2)) (Demo.Fin (11 # 2)) "/work/local.tif"
                           Demo.s0 _ _ H6 H7 eq_refl) H9) _ H8).
Defined.

Lemma disjoint_window_raises_witness :
  _get_dataset Demo.lib "soil.tif" Demo.s0 = (Returned Demo.soil, Demo.s_soil) /\
  outside Demo.lib (bounds (raster_of Demo.soil))
          (Demo.Fin 8) (Demo.Fin 10) (Demo.Fin 12) (Demo.Fin 12) = false /\
  from_bounds Demo.lib (Demo.Fin 10) (Demo.Fin 8) (Demo.Fin 12) (Demo.Fin 12)
              (transform (raster_of Demo.soil)) = Returned DemoScripts.east_raw /\
  round_offsets Demo.lib DemoScripts.east_raw = Returned DemoScripts.east_raw /\
  round_lengths Demo.lib DemoScripts.east_raw = Returned DemoScripts.east_raw /\
  intersect DemoScripts.east_raw
            (mkWindow 0 0 (inject_Z (raster_width (raster_of Demo.soil)))
                          (inject_Z (raster_height (raster_of Demo.soil)))) = false /\
  get_soil_temperatures_in_bbox Demo.lib DemoScripts.east_box "soil.tif" false Demo.s0
  = (Raised (WindowError "windows do not intersect"), Demo.s_soil) /\
  count_reads (log Demo.s_soil) = count_reads (log Demo.s0).
Proof.
  assert (H1 : _get_dataset Demo.lib "soil.tif" Demo.s0 = (Returned Demo.soil, Demo.s_soil))
    by reflexivity.
  assert (H2 : outside Demo.lib (bounds (raster_of Demo.soil))
                       (Demo.Fin 8) (Demo.Fin 10) (Demo.Fin 12) (Demo.Fin 12) = false)
    by reflexivity.
  assert (H3 : from_bounds Demo.lib (Demo.Fin 10) (Demo.Fin 8) (Demo.Fin 12) (Demo.Fin 12)
                           (transform (raster_of Demo.soil)) = Returned DemoScripts.east_raw)
    by reflexivity.
  assert (H4 : round_offsets Demo.lib DemoScripts.east_raw = Returned DemoScripts.east_raw)
    by reflexivity.
  assert (H5 : round_lengths Demo.lib DemoScripts.east_raw = Returned DemoScripts.east_raw)
    by reflexivity.
  assert (H6 : intersect DemoScripts.east_raw
                 (mkWindow 0 0 (inject_Z (raster_width (raster_of Demo.soil)))
                               (inject_Z (raster_height (raster_of Demo.soil)))) = false)
    by reflexivity.
  repeat (split; [assumption|]).
  exact (disjoint_window_raises Demo.lib _ _ _ _ "soil.tif" false Demo.s0 _ _ _ _ _
                                H1 H2 H3 H4 H5 H6).
Defined.

Lemma bbox_query_twice_witness :
  _get_dataset Demo.lib "soil.tif" Demo.s0 = (Returned Demo.soil, Demo.s_soil) /\
  fst (get_soil_temperatures_in_bbox Demo.lib Demo.corner_box "soil.tif" true
         (snd (get_soil_temperatures_in_bbox Demo.lib Demo.corner_box "soil.tif" true
                 Demo.s0)))
  = fst (get_soil_temperatures_in_bbox Demo.lib Demo.corner_box "soil.tif" true Demo.s0) /\
  (count_opens
     (log (snd (get_soil_temperatures_in_bbox Demo.lib Demo.corner_box "soil.tif" true
                  (snd (get_soil_temperatures_in_bbox Demo.lib Demo.corner_box
                          "soil.tif" true Demo.s0)))))
   <= S (count_opens (log Demo.s0)))%nat.
Proof.
  assert (H1 : _get_dataset Demo.lib "soil.tif" Demo.s0 = (Returned Demo.soil, Demo.s_soil))
    by reflexivity.
  split; [exact H1|].
  pose proof (bbox_query_twice Demo.lib Demo.corner_box "soil.tif" true Demo.s0)
    as [Hsame Hopens].
  split; [exact Hsame | exact (Hopens _ _ H1)].
Defined.

Lemma queries_share_the_handle_witness :
  _get_dataset Demo.lib "soil.tif" Demo.s0 = (Returned Demo.soil, Demo.s_soil) /\
  expanduser_resolve Demo.lib "/work/soil.tif" = expanduser_resolve Demo.lib "soil.tif" /\
  count_opens
    (log (snd (get_soil_temperature Demo.lib (Coord (Demo.Fin 1) (Demo.Fin 1))
                 "/work/soil.tif"
                 (snd (get_soil_temperatures_in_bbox Demo.lib Demo.corner_box "soil.tif"
                         false Demo.s0)))))
  = count_opens
      (log (snd (get_soil_temperatures_in_bbox Demo.lib Demo.corner_box "soil.tif"
                   false Demo.s0))).
Proof.
  assert (H1 : _get_dataset Demo.lib "soil.tif" Demo.s0 = (Returned Demo.soil, Demo.s_soil))
    by reflexivity.
  assert (H2 : expanduser_resolve Demo.lib "/work/soil.tif"
               = expanduser_resolve Demo.lib "soil.tif") by reflexivity.
  split; [exact H1|]. split; [exact H2|].
  exact (proj1 (queries_share_the_handle Demo.lib Demo.corner_box false
                  (Demo.Fin 1) (Demo.Fin 1) "soil.tif" "/work/soil.tif" Demo.s0
                  Demo.soil Demo.s_soil H1 H2)).
Defined.

Lemma geocoding_failure_precedes_raster_witness :
  _geocode Demo.lib "Nowhere" Demo.s0
  = (Raised (ValueError "Address not found: 'Nowhere'"), DemoScripts.s_nowhere) /\
  get_soil_temperature Demo.lib (Address "Nowhere") "missing.tif" Demo.s0
  = (Raised (ValueError "Address not found: 'Nowhere'"), DemoScripts.s_nowhere) /\
  count_opens (log DemoScripts.s_nowhere) = count_opens (log Demo.s0) /\
  count_samples (log DemoScripts.s_nowhere) = count_samples (log Demo.s0) /\
  dataset_cache DemoScripts.s_nowhere = dataset_cache Demo.s0.
Proof.
  assert (H1 : _geocode Demo.lib "Nowhere" Demo.s0
               = (Raised (ValueError "Address not found: 'Nowhere'"),
                  DemoScripts.s_nowhere))
    by reflexivity.
  split; [exact H1|].
  exact (geocoding_failure_precedes_raster Demo.lib "Nowhere" "missing.tif" Demo.s0 _ _ H1).
Defined.

Lemma lookup_cli_geocoding_failures_witness :
  geopy_installed Demo.lib_no_geopy = false /\
  ending (lookup_cli Demo.lib_no_geopy DemoScripts.slib "Equator Cafe" None) = Exit 1 /\
  geopy_installed Demo.lib = true /\
  nominatim_geocode Demo.lib 0 "soil-temp-lookup" "Nowhere" 5 = Returned None /\
  lookup_cli Demo.lib DemoScripts.slib "Nowhere" (Some "missing.tif")
  = {| outputs := [Stderr "❌ Address not found: 'Nowhere'"]; ending := Exit 1 |}.
Proof.
  assert (H1 : geopy_installed Demo.lib_no_geopy = false) by reflexivity.
  assert (H2 : geopy_installed Demo.lib = true) by reflexivity.
  assert (H3 : nominatim_geocode Demo.lib 0 "soil-temp-lookup" "Nowhere" 5 = Returned None)
    by reflexivity.
  split; [exact H1|]. split.
  - rewrite (proj1 (lookup_cli_geocoding_failures Demo.lib_no_geopy DemoScripts.slib
                      "Equator Cafe" None) H1).
    reflexivity.
  - split; [exact H2|]. split; [exact H3|].
    exact (proj2 (lookup_cli_geocoding_failures Demo.lib DemoScripts.slib
                    "Nowhere" (Some "missing.tif")) H2 H3).
Defined.

Lemma lookup_cli_prints_result_witness :
  geopy_installed Demo.lib = true /\
  nominatim_geocode Demo.lib 0 "soil-temp-lookup" "Equator Cafe" 5
  = Returned (Some (Demo.Fin (11 # 2), Demo.Fin (11 # 2))) /\
  fst (get_soil_temperature Demo.lib (Coord (Demo.Fin (11 # 2)) (Demo.Fin (11 # 2)))
         "soil.tif" (initial_state Demo.num Demo.affine))
  = Returned (Some (Demo.Fin (31 # 2))) /\
  lookup_cli Demo.lib DemoScripts.slib "Equator Cafe" (Some "soil.tif")
  = {| outputs := [Stdout (json_dumps DemoScripts.slib "Equator Cafe"
                             (Some (Demo.Fin (31 # 2))))];
       ending := Exit 0 |}.
Proof.
  assert (H1 : geopy_installed Demo.lib = true) by reflexivity.
  assert (H2 : nominatim_geocode Demo.lib 0 "soil-temp-lookup" "Equator Cafe" 5
               = Returned (Some (Demo.Fin (11 # 2), Demo.Fin (11 # 2)))) by reflexivity.
  assert (H3 : fst (get_soil_temperature Demo.lib
                      (Coord (Demo.Fin (11 # 2)) (Demo.Fin (11 # 2)))
                      "soil.tif" (initial_state Demo.num Demo.affine))
               = Returned (Some (Demo.Fin (31 # 2)))) by reflexivity.
  split; [exact H1|]. split; [exact H2|]. split; [exact H3|].
  exact (lookup_cli_prints_result Demo.lib DemoScripts.slib "Equator Cafe"
           (Some "soil.tif") _ _ _ H1 H2 H3).
Defined.

Lemma main_plots_only_at_the_end_of_a_good_run_witness :
  In PlotShown (outputs (main Demo.lib DemoScripts.slib "/work/soil.tif" true)) /\
  ending (main Demo.lib DemoScripts.slib "/work/soil.tif" true) = Exit 0 /\
  exists before,
    outputs (main Demo.lib DemoScripts.slib "/work/soil.tif" true)
    = (before ++ [PlotShown])%list /\
    ~ In PlotShown before.
Proof.
  assert (H1 : In PlotShown (outputs (main Demo.lib DemoScripts.slib "/work/soil.tif" true))).
  { vm_compute. repeat (try (left; reflexivity); right). }
  split; [exact H1|].
  exact (proj2 (proj2 (proj2 (main_plots_only_at_the_end_of_a_good_run
                                Demo.lib DemoScripts.slib "/work/soil.tif" true H1)))).
Defined.

Lemma main_headless_fallback_witness :
  plt_imported DemoScripts.slib_headless = false /\
  main Demo.lib DemoScripts.slib_headless "/work/soil.tif" true
  = {| outputs := Stdout MATPLOTLIB_WARNING
                  :: outputs (main Demo.lib DemoScripts.slib_headless "/work/soil.tif" false);
       ending := ending (main Demo.lib DemoScripts.slib_headless "/work/soil.tif" false) |}.
Proof.
  assert (H1 : plt_imported DemoScripts.slib_headless = false) by reflexivity.
  split; [exact H1|].
  exact (main_headless_fallback Demo.lib DemoScripts.slib_headless "/work/soil.tif" H1).
Defined.

Lemma main_exit_status_witness :
  path_exists DemoScripts.slib (path_str DemoScripts.slib "/work/none.tif") = false /\
  ending (main Demo.lib DemoScripts.slib "/work/none.tif" true) = Exit 1 /\
  exists before,
    outputs (main Demo.lib DemoScripts.slib "/work/none.tif" true)
    = (before ++ [Stdout (not_found_message "/work/none.tif")])%list.
Proof.
  assert (H1 : path_exists DemoScripts.slib (path_str DemoScripts.slib "/work/none.tif")
               = false) by reflexivity.
  split; [exact H1|].
  pose proof (main_exit_status Demo.lib DemoScripts.slib "/work/none.tif" true)
    as (Hiff & Hmsg & _).
  split; [exact (proj2 Hiff H1) | exact (Hmsg H1)].
Defined.

Lemma failed_reprojection_not_cached_witness :
  dataset_cache Demo.s0 !! expanduser_resolve Demo.lib "/work/local.tif" = None /\
  disk Demo.lib (expanduser_resolve Demo.lib "/work/local.tif")
  = Some (Demo.grid (Some (WKT "LOCAL_CS"))) /\
  gdal_warp Demo.lib (Demo.grid (Some (WKT "LOCAL_CS"))) (EPSG 4326)
  = Raised (CollaboratorError "Cannot find coordinate operations to EPSG:4326") /\
  exists s1 s2,
    _get_dataset Demo.lib "/work/local.tif" Demo.s0
    = (Raised (CollaboratorError "Cannot find coordinate operations to EPSG:4326"), s1) /\
    dataset_cache s1 = dataset_cache Demo.s0 /\
    count_opens (log s1) = S (count_opens (log Demo.s0)) /\
    _get_dataset Demo.lib "/work/local.tif" s1
    = (Raised (CollaboratorError "Cannot find coordinate operations to EPSG:4326"), s2) /\
    count_opens (log s2) = S (S (count_opens (log Demo.s0))).
Proof.
  assert (H1 : dataset_cache Demo.s0 !! expanduser_resolve Demo.lib "/work/local.tif"
               = None) by reflexivity.
  assert (H2 : disk Demo.lib (expanduser_resolve Demo.lib "/work/local.tif")
               = Some (Demo.grid (Some (WKT "LOCAL_CS")))) by reflexivity.
  assert (H3 : gdal_warp Demo.lib (Demo.grid (Some (WKT "LOCAL_CS"))) (EPSG 4326)
               = Raised (CollaboratorError
                           "Cannot find coordinate operations to EPSG:4326"))
    by reflexivity.
  assert (H4 : to_epsg (WKT "LOCAL_CS") <> Some 4326) by discriminate.
  split; [exact H1|]. split; [exact H2|]. split; [exact H3|].
  exact (failed_reprojection_not_cached Demo.lib "/work/local.tif" Demo.s0 _ _ _
           H1 H2 eq_refl H4 H3).
Defined.

Lemma sampler_exception_propagates_witness :
  _get_dataset Demo.lib "soil.tif" Demo.s0 = (Returned Demo.soil, Demo.s_soil) /\
  sample (raster_of Demo.soil) [(Demo.NaN, Demo.NaN)]
  = Raised (ValueError "cannot convert float NaN to integer") /\
  fst (get_soil_temperature Demo.lib (Coord Demo.NaN Demo.NaN) "soil.tif" Demo.s0)
  = Raised (ValueError "cannot convert float NaN to integer") /\
  dataset_cache (snd (get_soil_temperature Demo.lib (Coord Demo.NaN Demo.NaN) "soil.tif"
                        Demo.s0))
    !! expanduser_resolve Demo.lib "soil.tif" = Some Demo.soil.
Proof.
  assert (H1 : _get_dataset Demo.lib "soil.tif" Demo.s0 = (Returned Demo.soil, Demo.s_soil))
    by reflexivity.
  assert (H2 : sample (raster_of Demo.soil) [(Demo.NaN, Demo.NaN)]
               = Raised (ValueError "cannot convert float NaN to integer"))
    by reflexivity.
  split; [exact H1|]. split; [exact H2|].
  exact (sampler_exception_propagates Demo.lib Demo.NaN Demo.NaN "soil.tif" Demo.s0
           Demo.soil Demo.s_soil _ H1 H2).
Defined.
